(** * CreateTimeLapsePolygons: the time window, the time list and the solve loop

    A shallow embedding of
    [src/add-GTFS-to-a-network-dataset/scripts/CreateTimeLapsePolygons.py].

    The script reads a start and an end day-and-time and an increment in
    minutes, checks them, builds the list of instants to solve at with a
    [while] loop, and then solves a Service Area layer once per instant,
    tagging the polygons with the instant and accumulating them in one output
    feature class.

    - Python's [datetime] values of the script carry whole minutes only; they
      are modelled by their number of minutes, [1440 * ordinal + 60 * hour +
      minute], a [Z] inside the range of the type (years 1 to 9999).  Leaving
      the range raises [OverflowError], as [datetime.__add__] does.
    - [arcpy] is the host: its answers are read from a [world] record and its
      calls are appended to a log, so that "the solver is never invoked" is a
      statement about the log.
    - [strptime] and the solver itself are interfaces ([PyLib], [Engine]):
      the theorems hold for whatever they return. *)

From stdpp Require Import gmap strings list sorting.
From Stdlib Require Import ZArith Lia Ascii.

Local Open Scope Z_scope.

(** ** Python's [datetime] and [timedelta], at minute resolution *)

Module Py.

Definition MINYEAR : Z := 1.
Definition MAXYEAR : Z := 9999.

Definition is_leap (year : Z) : bool :=
  (year mod 4 =? 0) && (negb (year mod 100 =? 0) || (year mod 400 =? 0)).

Definition days_before_year (year : Z) : Z :=
  let y := year - 1 in y * 365 + y / 4 - y / 100 + y / 400.

Definition days_in_month (year month : Z) : Z :=
  if (month =? 2) && is_leap year then 29
  else nth (Z.to_nat month) [-1; 31; 28; 31; 30; 31; 30; 31; 31; 30; 31; 30; 31] (-1).

Definition days_before_month (year month : Z) : Z :=
  nth (Z.to_nat month) [-1; 0; 31; 59; 90; 120; 151; 181; 212; 243; 273; 304; 334] (-1)
  + (if (2 <? month) && is_leap year then 1 else 0).

(** [date.toordinal]: 0001-01-01 is day 1. *)
Definition ymd2ord (year month day : Z) : Z :=
  days_before_year year + days_before_month year month + day.

(** A [datetime] of the script: minutes counted from the midnight before
    0001-01-01 at ordinal 0, so that [==], [<] and [<=] on datetimes are the
    same comparisons on [Z] ([datetime_compare] below). *)
Definition instant := Z.

Definition minutes_per_day : Z := 1440.

(** [datetime.min] and [datetime.max] (to the minute). *)
Definition datetime_min : instant := Eval cbv in minutes_per_day * ymd2ord 1 1 1.
Definition datetime_max : instant :=
  Eval cbv in minutes_per_day * ymd2ord 9999 12 31 + 60 * 23 + 59.

Definition in_range (t : instant) : Prop := datetime_min <= t <= datetime_max.

(** A calendar day as [strptime(..., '%Y%m%d')] and the [days] table give it:
    a [datetime] at midnight, of which the script reads [year], [month] and
    [day] only. *)
Record date := Date { year : Z; month : Z; day : Z }.

#[global] Instance date_eq_dec : EqDecision date.
Proof. solve_decision. Defined.

(** [datetime.datetime(year, month, day, hour, minute)]; [None] is the
    [ValueError] of a field out of range. *)
Definition datetime (year month day hour minute : Z) : option instant :=
  if (MINYEAR <=? year) && (year <=? MAXYEAR)
     && (1 <=? month) && (month <=? 12)
     && (1 <=? day) && (day <=? days_in_month year month)
     && (0 <=? hour) && (hour <=? 23)
     && (0 <=? minute) && (minute <=? 59)
  then Some (minutes_per_day * ymd2ord year month day + 60 * hour + minute)
  else None.

(** [datetime.timedelta(minutes=n)]; [None] is the [OverflowError] of more
    than 999999999 days either way. *)
Definition max_delta_days : Z := 999999999.

Definition timedelta (minutes : Z) : option Z :=
  let days := minutes / minutes_per_day in
  if (- max_delta_days <=? days) && (days <=? max_delta_days)
  then Some minutes else None.

(** [t + delta]; [None] is [OverflowError: date value out of range]. *)
Definition add (t : instant) (delta : Z) : option instant :=
  let t' := t + delta in
  if (datetime_min <=? t') && (t' <=? datetime_max) then Some t' else None.

(** [date.fromordinal]: the year, month and day of an ordinal. *)
Definition ord2ymd (n : Z) : Z * Z * Z :=
  let n := n - 1 in
  let n400 := n / 146097 in
  let n := n mod 146097 in
  let n100 := n / 36524 in
  let n := n mod 36524 in
  let n4 := n / 1461 in
  let n := n mod 1461 in
  let n1 := n / 365 in
  let n := n mod 365 in
  let year := n400 * 400 + 1 + n100 * 100 + n4 * 4 + n1 in
  if (n1 =? 4) || (n100 =? 4) then (year - 1, 12, 31)
  else
    let leapyear := (n1 =? 3) && (negb (n4 =? 24) || (n100 =? 3)) in
    let month := Z.shiftr (n + 50) 5 in
    let preceding :=
      nth (Z.to_nat month) [-1; 0; 31; 59; 90; 120; 151; 181; 212; 243; 273; 304; 334] (-1)
      + (if (2 <? month) && leapyear then 1 else 0) in
    if n <? preceding then
      let month := month - 1 in
      let preceding :=
        preceding
        - (nth (Z.to_nat month) [-1; 31; 28; 31; 30; 31; 30; 31; 31; 30; 31; 30; 31] (-1)
           + (if (month =? 2) && leapyear then 1 else 0)) in
      (year, month, n - preceding + 1)
    else (year, month, n - preceding + 1).

(** The decimal digits of [n], the last [width] of them, zero-padded. *)
Fixpoint zero_padded (width : nat) (n : Z) (acc : string) : string :=
  match width with
  | O => acc
  | S width' =>
      zero_padded width' (n / 10)
        (String (ascii_of_nat (48 + Z.to_nat (n mod 10))) acc)
  end.

(** [str(t)] of a [datetime] with no seconds: year-month-day hour:minute:00. *)
Definition str (t : instant) : string :=
  let '(y, m, d) := ord2ymd (t / minutes_per_day) in
  let hm := t mod minutes_per_day in
  zero_padded 4 y (String "-"
    (zero_padded 2 m (String "-"
      (zero_padded 2 d (String " "
        (zero_padded 2 (hm / 60) (String ":"
          (zero_padded 2 (hm mod 60) ":00")))))))).

End Py.

(** ** The host: [arcpy] and the Python library *)

(** [datetime.strptime] with the two formats of the script, '%Y%m%d' and
    '%H:%M'; [None] is its [ValueError]. *)
Class PyLib := {
  strptime_Ymd : string -> option Py.date;
  strptime_HM : string -> option (Z * Z)
}.

(** The Service Area solver: the shapes it yields for the layer at the time
    of day set in its solver properties. *)
Class Engine := {
  geometry : Type;
  service_area : option Py.instant -> list geometry
}.

(** The exceptions that can leave the [try] block. *)
Inductive exn := CustomError | ValueError | OverflowError.

(** A computation returns, raises, or is still in its [while] loop when the
    fuel is spent. *)
Inductive result (A : Type) :=
| Ok (a : A)
| Raise (e : exn)
| OutOfFuel.
Arguments Ok {A} a.
Arguments Raise {A} e.
Arguments OutOfFuel {A}.

(** The calls into [arcpy] that act on the host, in the order made. *)
Inductive call :=
| CheckOutExtension
| CheckInExtension
| AddError (msg : string)
| AddWarning (msg : string)
| AddMessage (msg : string)
| DeleteField (field : string)
| AddFieldToAnalysisLayer (field : string)
| SetTimeOfDay (t : Py.instant)
| Solve
| CalculateField (field expression : string)
| CopyFeatures
| Append.

#[global] Instance call_eq_dec : EqDecision call.
Proof. solve_decision. Defined.

(** The script's parameters ([arcpy.GetParameter], [GetParameterAsText]);
    parameter 0, the layer, is described by the [world].  The increment is a
    whole number of minutes, of either sign. *)
Record params := Params {
  output_feature_class : string;
  start_day_input : string;
  start_time_input : string;
  end_day_input : string;
  end_time_input : string;
  increment_input : Z
}.

(** The special dates of ArcMap's generic weekdays (lines 42-49). *)
Definition days : gmap string Py.date :=
  {[ "Monday" := Py.Date 1900 1 1;
     "Tuesday" := Py.Date 1900 1 2;
     "Wednesday" := Py.Date 1900 1 3;
     "Thursday" := Py.Date 1900 1 4;
     "Friday" := Py.Date 1900 1 5;
     "Saturday" := Py.Date 1900 1 6;
     "Sunday" := Py.Date 1899 12 31 ]}.

Definition time_field : string := "TimeOfDay".

(** The double-quote character of line 144. *)
Definition dquote : string := String "034"%char EmptyString.

Section Script.

Context `{PyLib} `{Engine}.

(** A row of the polygons sublayer or of the output feature class. *)
Record polygon := Polygon {
  shape : geometry;
  TimeOfDay : option Py.instant
}.

Record world := World {
  network_license : bool;          (* CheckExtension says Available *)
  dataType : string;               (* arcpy.Describe(layer).dataType *)
  solverName : string;             (* arcpy.Describe(layer).solverName *)
  polygon_fields : list (string * string);  (* name and type, polygons sublayer *)
  timeOfDay : option Py.instant;   (* solverProps.timeOfDay *)
  SAPolygons : list polygon;       (* rows of the polygons sublayer *)
  output : option (list polygon);  (* the output feature class, if it exists *)
  log : list call
}.

Definition set_polygon_fields (f : list (string * string)) (w : world) : world :=
  World (network_license w) (dataType w) (solverName w) f
        (timeOfDay w) (SAPolygons w) (output w) (log w).
Definition set_timeOfDay (t : option Py.instant) (w : world) : world :=
  World (network_license w) (dataType w) (solverName w) (polygon_fields w)
        t (SAPolygons w) (output w) (log w).
Definition set_SAPolygons (l : list polygon) (w : world) : world :=
  World (network_license w) (dataType w) (solverName w) (polygon_fields w)
        (timeOfDay w) l (output w) (log w).
Definition set_output (o : option (list polygon)) (w : world) : world :=
  World (network_license w) (dataType w) (solverName w) (polygon_fields w)
        (timeOfDay w) (SAPolygons w) o (log w).
Definition set_log (l : list call) (w : world) : world :=
  World (network_license w) (dataType w) (solverName w) (polygon_fields w)
        (timeOfDay w) (SAPolygons w) (output w) l.

(** *** The monad of the script: the host's state and an exception *)

Definition M (A : Type) : Type := world -> world * result A.

Definition ret {A} (a : A) : M A := fun w => (w, Ok a).

Definition bind {A B} (m : M A) (k : A -> M B) : M B :=
  fun w =>
    match m w with
    | (w', Ok a) => k a w'
    | (w', Raise e) => (w', Raise e)
    | (w', OutOfFuel) => (w', OutOfFuel)
    end.

Definition raise {A} (e : exn) : M A := fun w => (w, Raise e).

Definition gets {A} (f : world -> A) : M A := fun w => (w, Ok (f w)).

Definition modify (f : world -> world) : M unit := fun w => (f w, Ok tt).

(** A library call that may raise [e]. *)
Definition or_raise {A} (e : exn) (o : option A) : M A :=
  match o with Some a => ret a | None => raise e end.

(** A pure computation that may raise or run out of fuel. *)
Definition lift {A} (r : result A) : M A := fun w => (w, r).

Notation "x <- m ;; k" := (bind m (fun x => k))
  (at level 100, m at next level, right associativity).
Notation "m ;; k" := (bind m (fun _ => k))
  (at level 100, right associativity).

(** An [arcpy] call, recorded in the log. *)
Definition arcpy (c : call) : M unit :=
  modify (fun w => set_log (log w ++ [c]) w).

(** [for x in l: body x] *)
Fixpoint for_each {A} (l : list A) (body : A -> M unit) : M unit :=
  match l with
  | [] => ret tt
  | x :: l' => body x ;; for_each l' body
  end.

(** *** Lines 11-27: the licence and the layer *)

Definition check_license : M unit :=
  available <- gets network_license ;;
  if available : bool then arcpy CheckOutExtension
  else
    arcpy (AddError "You must have a Network Analyst license to use this tool.") ;;
    raise CustomError.

Definition check_layer : M unit :=
  dt <- gets dataType ;;
  sn <- gets solverName ;;
  if bool_decide (dt <> "NALayer") || bool_decide (sn <> "Service Area Solver")
  then
    arcpy (AddError "Input layer must be a Service Area layer.") ;;
    raise CustomError
  else ret tt.

(** *** Lines 51-59: the lower end of the time window *)

Definition compose (d : Py.date) (hm : Z * Z) : M Py.instant :=
  or_raise ValueError (Py.datetime (Py.year d) (Py.month d) (Py.day d) hm.1 hm.2).

Definition lower_end (p : params) : M (bool * Py.date * Py.instant) :=
  gs <- match days !! start_day_input p with
        | Some d => ret (true, d)
        | None =>
            d <- or_raise ValueError (strptime_Ymd (start_day_input p)) ;;
            ret (false, d)
        end ;;
  let generic_weekday := gs.1 in
  let start_day := gs.2 in
  start_time_dt <- or_raise ValueError (strptime_HM (start_time_input p)) ;;
  start_time <- compose start_day start_time_dt ;;
  ret (generic_weekday, start_day, start_time).

(** *** Lines 61-86: the upper end of the time window *)

Definition upper_end (p : params) (generic_weekday : bool) (start_day : Py.date)
  : M Py.instant :=
  end_day <- match days !! end_day_input p with
             | Some end_day =>
                 (if negb generic_weekday then
                    arcpy (AddError "Your Start Day is a specific date, but your End Day is a generic weekday. Please use either a specific date or a generic weekday for both Start Date and End Date.") ;;
                    raise CustomError
                  else ret tt) ;;
                 (if bool_decide (start_day <> end_day) then
                    arcpy (AddError "If using a generic weekday, the Start Day and End Day must be the same.") ;;
                    raise CustomError
                  else ret tt) ;;
                 ret end_day
             | None =>
                 (if generic_weekday then
                    arcpy (AddError "Your Start Day is a generic weekday, but your End Day is a specific date. Please use either a specific date or a generic weekday for both Start Date and End Date.") ;;
                    raise CustomError
                  else ret tt) ;;
                 or_raise ValueError (strptime_Ymd (end_day_input p))
             end ;;
  end_time_dt <- or_raise ValueError (strptime_HM (end_time_input p)) ;;
  compose end_day end_time_dt.

(** *** Lines 88-93: the window is not empty *)

Definition check_window (start_time end_time : Py.instant) : M unit :=
  if start_time =? end_time then
    arcpy (AddError "Start and end date and time are the same.") ;;
    raise CustomError
  else if end_time <? start_time then
    arcpy (AddError "End time is earlier than start time.") ;;
    raise CustomError
  else ret tt.

(** Lines 11-93 together: every check that can end the script with
    [CustomError], and the window when all of them pass. *)
Definition process_inputs (p : params) : M (Py.instant * Py.instant) :=
  check_license ;;
  check_layer ;;
  lo <- lower_end p ;;
  let generic_weekday := lo.1.1 in
  let start_day := lo.1.2 in
  let start_time := lo.2 in
  end_time <- upper_end p generic_weekday start_day ;;
  check_window start_time end_time ;;
  ret (start_time, end_time).

(** *** Lines 95-102: the time list *)

(** The two variables of the [while] loop. *)
Record loop_state := LoopState {
  timelist : list Py.instant;
  t : Py.instant
}.

(** What one pass through the loop does: the test failed and the loop is
    left ([Break]), the body ran ([Continue]), or [t += increment] raised
    [OverflowError] after the append ([Overflow]). *)
Inductive step :=
| Continue (s : loop_state)
| Break (s : loop_state)
| Overflow (s : loop_state).

Definition loop_step (end_time increment : Z) (s : loop_state) : step :=
  if t s <=? end_time then
    let timelist' := timelist s ++ [t s] in
    match Py.add (t s) increment with
    | Some t' => Continue (LoopState timelist' t')
    | None => Overflow (LoopState timelist' (t s))
    end
  else Break s.

(** At most [n] passes: [Continue s] says the loop is still running, in
    state [s], after [n] of them. *)
Fixpoint while_loop (n : nat) (end_time increment : Z) (s : loop_state) : step :=
  match n with
  | O => Continue s
  | S n' =>
      match loop_step end_time increment s with
      | Continue s' => while_loop n' end_time increment s'
      | r => r
      end
  end.

Definition make_timelist (fuel : nat) (start_time end_time : Py.instant)
  (increment_input : Z) : result (list Py.instant) :=
  match Py.timedelta increment_input with
  | None => Raise OverflowError
  | Some increment =>
      match while_loop fuel end_time increment (LoopState [] start_time) with
      | Break s => Ok (timelist s)
      | Overflow _ => Raise OverflowError
      | Continue _ => OutOfFuel
      end
  end.

(** *** Lines 105-124: the TimeOfDay field of the polygons sublayer *)

Definition delete_field (name : string) : M unit :=
  arcpy (DeleteField name) ;;
  modify (fun w =>
    set_polygon_fields (filter (fun f => f.1 <> name) (polygon_fields w)) w).

(** "If it already exists, this will do nothing." *)
Definition add_field_to_analysis_layer (name type : string) : M unit :=
  arcpy (AddFieldToAnalysisLayer name) ;;
  modify (fun w =>
    if bool_decide (name ∈ (polygon_fields w).*1) then w
    else set_polygon_fields (polygon_fields w ++ [(name, type)]) w).

(** Lines 117-121: a TimeOfDay field that is no Date field is deleted. *)
Definition delete_unless_date (f : string * string) : M unit :=
  if bool_decide (f.1 = time_field) && bool_decide (f.2 <> "Date") then
    arcpy (AddWarning "Your Service Area layer's Polygons sublayer contained a field called TimeOfDay of a type other than Date.  This field will be deleted and replaced with a field of type Date used for the output of this tool.") ;;
    delete_field time_field
  else ret tt.

Definition prepare_time_field : M unit :=
  poly_fields <- gets (fun w => filter (fun f => f.1 = time_field) (polygon_fields w)) ;;
  for_each poly_fields delete_unless_date ;;
  add_field_to_analysis_layer time_field "Date".

(** *** Lines 127-152: one solve per instant *)

(** [arcpy.na.Solve]: the sublayer now holds the polygons of the time of day
    set in the solver properties, their TimeOfDay still empty. *)
Definition solve : M unit :=
  arcpy Solve ;;
  modify (fun w =>
    set_SAPolygons (map (fun g => Polygon g None) (service_area (timeOfDay w))) w).

(** [CalculateField] with the quoted [str(t)]: every row of the sublayer
    gets the date that string denotes. *)
Definition calculate_field (t : Py.instant) : M unit :=
  let expression := dquote +:+ Py.str t +:+ dquote in
  arcpy (CalculateField time_field expression) ;;
  modify (fun w =>
    set_SAPolygons (map (fun r => Polygon (shape r) (Some t)) (SAPolygons w)) w).

Definition copy_features : M unit :=
  arcpy CopyFeatures ;;
  modify (fun w => set_output (Some (SAPolygons w)) w).

Definition append : M unit :=
  arcpy Append ;;
  modify (fun w => set_output (Some (default [] (output w) ++ SAPolygons w)) w).

Definition solve_at (t : Py.instant) : M unit :=
  arcpy (AddMessage (Py.str t)) ;;
  modify (set_timeOfDay (Some t)) ;;
  arcpy (SetTimeOfDay t) ;;
  solve ;;
  calculate_field t ;;
  exists_ <- gets (fun w => bool_decide (is_Some (output w))) ;;
  if negb exists_ then copy_features else append.

Definition solve_loop (timelist : list Py.instant) : M unit :=
  arcpy (AddMessage "Solving Service Area at time...") ;;
  for_each timelist solve_at.

(** *** The whole script *)

(** The body of the [try]. *)
Definition body (fuel : nat) (p : params) : M unit :=
  window <- process_inputs p ;;
  timelist <- lift (make_timelist fuel window.1 window.2 (increment_input p)) ;;
  prepare_time_field ;;
  solve_loop timelist.

(** Line 3, the [try] with its handlers and the [finally]: [CustomError] is
    swallowed, any other exception is raised again, and the licence is
    checked in either way.  A loop that never ends never gets there. *)
Definition script (fuel : nat) (p : params) : M unit :=
  fun w =>
    match (arcpy CheckOutExtension ;; body fuel p) w with
    | (w', Ok _) => (arcpy CheckInExtension ;; ret tt) w'
    | (w', Raise CustomError) => (arcpy CheckInExtension ;; ret tt) w'
    | (w', Raise e) => (arcpy CheckInExtension ;; raise e) w'
    | (w', OutOfFuel) => (w', OutOfFuel)
    end.

End Script.

(** ** The vocabulary of the statements *)

Section Statements.

Context `{PyLib} `{Engine}.

Implicit Types (s : loop_state) (n : nat) (start_time end_time increment : Z).
Implicit Types (p : params) (w : world) (t : Py.instant).

(** The first [n] instants from [start_time] on, [increment] apart. *)
Definition ticks start_time increment n : list Py.instant :=
  (fun i : nat => start_time + Z.of_nat i * increment) <$> seq 0 n.

(** The number of instants of the window: [floor((end - start) / increment) + 1]. *)
Definition count start_time end_time increment : Z :=
  (end_time - start_time) / increment + 1.

Definition state_of (r : step) : loop_state :=
  match r with Continue s | Break s | Overflow s => s end.

(** The invariant of the loop: the list is strictly increasing and stays
    below the instant to append next. *)
Definition increasing_below s : Prop :=
  StronglySorted Z.lt (timelist s) /\ Forall (fun x => x < t s) (timelist s).

(** What the invariant gives after a pass, by the way the pass ended. *)
Definition increasing_after (r : step) : Prop :=
  match r with
  | Continue s | Break s => increasing_below s
  | Overflow s => StronglySorted Z.lt (timelist s)
  end.

(** Python orders [datetime] values field by field. *)
Definition fields_lt (a b : Z * Z * Z * Z * Z) : Prop :=
  let '(y1, m1, d1, h1, n1) := a in
  let '(y2, m2, d2, h2, n2) := b in
  y1 < y2 \/ (y1 = y2 /\ (m1 < m2 \/ (m1 = m2 /\ (d1 < d2 \/ (d1 = d2 /\
    (h1 < h2 \/ (h1 = h2 /\ n1 < n2))))))).

(** The day a day input stands for, and the instant a day and a time input
    compose to (lines 53-59 and 63-86 without their checks). *)
Definition resolve_day (day_input : string) : option Py.date :=
  match days !! day_input with
  | Some d => Some d
  | None => strptime_Ymd day_input
  end.

Definition instant_of (day_input time_input : string) : option Py.instant :=
  d ← resolve_day day_input;
  hm ← strptime_HM time_input;
  Py.datetime (Py.year d) (Py.month d) (Py.day d) hm.1 hm.2.

(** A generic weekday name is a key of [days]. *)
Definition generic (day_input : string) : bool :=
  bool_decide (is_Some (days !! day_input)).

(** A licensed host whose layer is a Service Area layer: the checks of
    lines 11-27 pass. *)
Definition ready (w : world) : Prop :=
  network_license w = true
  /\ dataType w = "NALayer"
  /\ solverName w = "Service Area Solver".
(** [w'] is [w] after the calls [cs], which change nothing but the log. *)
Definition logged (cs : list call) w w' : Prop := w' = set_log (log w ++ cs) w.

(** The polygons of one solve, tagged with its instant. *)
Definition tagged t : list polygon :=
  (fun g => Polygon g (Some t)) <$> service_area (Some t).

(** The calls of one pass of the solve loop; [exists_] is what [arcpy.Exists]
    answers for the output feature class. *)
Definition solve_calls (exists_ : bool) t : list call :=
  [AddMessage (Py.str t); SetTimeOfDay t; Solve;
   CalculateField time_field (dquote +:+ Py.str t +:+ dquote);
   if exists_ then Append else CopyFeatures].

Fixpoint loop_calls (exists_ : bool) (timelist : list Py.instant) : list call :=
  match timelist with
  | [] => []
  | t :: timelist' => solve_calls exists_ t ++ loop_calls true timelist'
  end.

(** The instant a call sets the time of day to, if it sets one; over a log
    it lists the instants solved at, in the order of the solves. *)
Definition solved_at (c : call) : option Py.instant :=
  match c with SetTimeOfDay t => Some t | _ => None end.

(** The output feature class after the solves of [timelist]. *)
Definition accumulated (before : option (list polygon)) (timelist : list Py.instant)
  : option (list polygon) :=
  match timelist with
  | [] => before
  | _ => Some (default [] before ++ (timelist ≫= tagged))
  end.

(** The calls that only touch the fields of the polygons sublayer. *)
Definition field_call (c : call) : Prop :=
  match c with
  | AddWarning _ | DeleteField _ | AddFieldToAnalysisLayer _ => True
  | _ => False
  end.

Definition fields_changed w w' : Prop :=
  exists cs fields,
    w' = set_log (log w ++ cs) (set_polygon_fields fields w)
    /\ Forall field_call cs.

End Statements.

(** ** Instances for the examples *)

Module Sample.

Definition digit (c : ascii) : option Z :=
  let n := Z.of_nat (nat_of_ascii c) - 48 in
  if (0 <=? n) && (n <=? 9) then Some n else None.

Fixpoint number (s : string) (acc : Z) : option Z :=
  match s with
  | EmptyString => Some acc
  | String c s' => d ← digit c; number s' (10 * acc + d)
  end.

(** Eight digits, a year from 0001 on and a day of that month: on these
    inputs '%Y%m%d' yields the date read here; every other input is refused
    (the library also takes a few unpadded ones). *)
Definition parse_Ymd (s : string) : option Py.date :=
  if (String.length s =? 8)%nat then
    y ← number (String.substring 0 4 s) 0;
    m ← number (String.substring 4 2 s) 0;
    d ← number (String.substring 6 2 s) 0;
    if (1 <=? y) && (1 <=? m) && (m <=? 12) && (1 <=? d)
       && (d <=? Py.days_in_month y m)
    then Some (Py.Date y m d) else None
  else None.

(** Two digits, a colon, two digits, at most 23:59. *)
Definition parse_HM (s : string) : option (Z * Z) :=
  if (String.length s =? 5)%nat && bool_decide (String.substring 2 1 s = ":") then
    h ← number (String.substring 0 2 s) 0;
    m ← number (String.substring 3 2 s) 0;
    if (h <=? 23) && (m <=? 59) then Some (h, m) else None
  else None.

#[export] Instance pylib : PyLib := Build_PyLib parse_Ymd parse_HM.

(** A solver that yields two polygons per solve, named by facility and by
    the time of day they were solved for. *)
#[export] Instance engine : Engine :=
  Build_Engine (nat * option Py.instant) (fun tod => [(1%nat, tod); (2%nat, tod)]).

(** A licensed host with a Service Area layer, no TimeOfDay field yet and
    no output feature class. *)
Definition fresh : world :=
  World true "NALayer" "Service Area Solver" [] None [] None [].

(** The same host when the output feature class is there before the run,
    holding one polygon of an earlier run. *)
Definition stale : polygon := Polygon (7%nat, None) None.

Definition with_output : world :=
  World true "NALayer" "Service Area Solver" [] None [] (Some [stale]) [].

(** The example of the specification: Monday, 08:00 to 09:00. *)
Definition monday (increment : Z) : params :=
  Params "out.gdb/polygons" "Monday" "08:00" "Monday" "09:00" increment.

(** One generic weekday and one date; two weekdays; an end before the start. *)
Definition mixed : params :=
  Params "out.gdb/polygons" "Monday" "08:00" "20160104" "09:00" 30.

Definition two_weekdays : params :=
  Params "out.gdb/polygons" "Monday" "08:00" "Tuesday" "09:00" 30.

Definition reversed : params :=
  Params "out.gdb/polygons" "Monday" "09:00" "Monday" "08:00" 30.

(** The last hour of the last day of [datetime]. *)
Definition last_hour : params :=
  Params "out.gdb/polygons" "99991231" "23:00" "99991231" "23:59" 60.

(** A host without a Network Analyst licence. *)
Definition unlicensed : world :=
  World false "NALayer" "Service Area Solver" [] None [] None [].

End Sample.

(** ** Proof steps *)

Ltac unfold_inputs :=
  unfold process_inputs, check_license, check_layer, lower_end, upper_end,
    check_window, compose, instant_of, resolve_day, generic, logged in *.

Ltac unfold_monad :=
  repeat (unfold or_raise, lift, bind, ret, raise, gets, arcpy, modify in *;
          cbn in * ).

Ltac cases := repeat (case_match; simplify_eq/=; try done).

Ltac months m :=
  let Hcases := fresh "Hcases" in
  assert (m = 1 \/ m = 2 \/ m = 3 \/ m = 4 \/ m = 5 \/ m = 6 \/ m = 7 \/ m = 8
          \/ m = 9 \/ m = 10 \/ m = 11 \/ m = 12) as Hcases by lia;
  repeat (destruct Hcases as [->|Hcases]); try subst m.

Ltac eval_to_nat :=
  repeat match goal with
    | |- context [Z.to_nat ?k] =>
        let n := eval vm_compute in (Z.to_nat k) in change (Z.to_nat k) with n
    end.

Ltac ready_host w Hready :=
  let Hlic := fresh "Hlic" in let Hdt := fresh "Hdt" in let Hsn := fresh "Hsn" in
  destruct w; destruct Hready as (Hlic & Hdt & Hsn); cbn in Hlic, Hdt, Hsn;
  subst; unfold_monad;
  change (bool_decide ("NALayer" <> "NALayer")) with false;
  change (bool_decide ("Service Area Solver" <> "Service Area Solver")) with false;
  cbn.

Ltac not_in_list H :=
  repeat (apply elem_of_cons in H as [H|H]; [discriminate|]);
  apply elem_of_nil in H.

Ltac decided :=
  repeat match goal with
    | H : bool_decide _ = false |- _ => apply bool_decide_eq_false in H
    | H : bool_decide _ = true |- _ => apply bool_decide_eq_true in H
    | H : ~ (?x <> ?y) |- _ => apply dec_stable in H
    | H : (_ =? _) = true |- _ => apply Z.eqb_eq in H
    | H : (_ =? _) = false |- _ => apply Z.eqb_neq in H
    | H : (_ <? _) = true |- _ => apply Z.ltb_lt in H
    | H : (_ <? _) = false |- _ => apply Z.ltb_ge in H
    end.

(** ** The calendar *)

Example ord_1900_01_01 : Py.ymd2ord 1900 1 1 = 693596.
Proof. reflexivity. Qed.

Example ord_9999_12_31 : Py.ymd2ord 9999 12 31 = 3652059.
Proof. reflexivity. Qed.

Example feb_30_is_no_date : Py.datetime 2016 2 30 8 0 = None.
Proof. reflexivity. Qed.

(** ** The [while] loop of the time list *)

Section TimeList.

Implicit Types (s : loop_state) (n k : nat) (start_time end_time increment : Z).

Lemma length_ticks start_time increment n :
  length (ticks start_time increment n) = n.
Proof. unfold ticks. by rewrite length_fmap, length_seq. Qed.

Lemma ticks_cons start_time increment n :
  ticks start_time increment (S n)
  = start_time :: ticks (start_time + increment) increment n.
Proof.
  unfold ticks. cbn [seq fmap list_fmap]. f_equal; [lia|].
  rewrite <- seq_shift, <- list_fmap_compose.
  apply list_fmap_ext. intros _ i _. cbn. lia.
Qed.

Lemma ticks_snoc start_time increment n :
  ticks start_time increment (S n)
  = ticks start_time increment n ++ [start_time + Z.of_nat n * increment].
Proof. unfold ticks. by rewrite seq_S, fmap_app. Qed.

Lemma lookup_ticks start_time increment n i :
  (i < n)%nat ->
  ticks start_time increment n !! i = Some (start_time + Z.of_nat i * increment).
Proof.
  intros Hi. unfold ticks. rewrite list_lookup_fmap, lookup_seq_lt by done. done.
Qed.

Lemma add_in_range (x delta : Z) :
  Py.in_range (x + delta) -> Py.add x delta = Some (x + delta).
Proof.
  unfold Py.in_range, Py.add. intros [Hlo Hhi]. cbv zeta.
  apply Z.leb_le in Hlo, Hhi. by rewrite Hlo, Hhi.
Qed.

Lemma add_out_of_range (x delta : Z) :
  ~ Py.in_range (x + delta) -> Py.add x delta = None.
Proof.
  unfold Py.in_range, Py.add. intros Hout. cbv zeta.
  destruct (Py.datetime_min <=? x + delta) eqn:Hlo; [|done].
  destruct (x + delta <=? Py.datetime_max) eqn:Hhi; [|done].
  apply Z.leb_le in Hlo, Hhi. lia.
Qed.

Lemma add_Some (x delta y : Z) :
  Py.add x delta = Some y -> y = x + delta /\ Py.in_range y.
Proof.
  unfold Py.add, Py.in_range. cbv zeta. intros Hadd.
  destruct (Py.datetime_min <=? x + delta) eqn:Hlo; [|done].
  destruct (x + delta <=? Py.datetime_max) eqn:Hhi; [|done].
  apply Z.leb_le in Hlo, Hhi. simplify_eq/=. lia.
Qed.

(** More fuel: the run goes on from where the shorter one stood. *)
Lemma while_loop_plus n k end_time increment s :
  while_loop (n + k) end_time increment s
  = match while_loop n end_time increment s with
    | Continue s' => while_loop k end_time increment s'
    | r => r
    end.
Proof.
  revert s. induction n as [|n IH]; intros s; [done|].
  cbn [Nat.add while_loop].
  destruct (loop_step end_time increment s); [apply IH|done..].
Qed.

(** A loop that was left stays left, whatever fuel is added. *)
Lemma while_loop_done n k end_time increment s r :
  while_loop n end_time increment s = r ->
  (forall s', r <> Continue s') ->
  (n <= k)%nat ->
  while_loop k end_time increment s = r.
Proof.
  intros Hn Hr Hk. replace k with (n + (k - n))%nat by lia.
  rewrite while_loop_plus, Hn. destruct r; [by destruct (Hr s0)|done..].
Qed.

(** [n] passes in which the test holds and the addition stays in range. *)
Lemma while_loop_continue n end_time increment s :
  (forall i : nat, (i < n)%nat ->
     t s + Z.of_nat i * increment <= end_time
     /\ Py.in_range (t s + Z.of_nat (S i) * increment)) ->
  while_loop n end_time increment s
  = Continue (LoopState (timelist s ++ ticks (t s) increment n)
                        (t s + Z.of_nat n * increment)).
Proof.
  revert s. induction n as [|n IH]; intros s Hok.
  - cbn. rewrite app_nil_r, Z.add_0_r. by destruct s.
  - cbn [while_loop]. unfold loop_step.
    destruct (Hok 0%nat ltac:(lia)) as [Hle Hin].
    replace (t s + Z.of_nat 0 * increment) with (t s) in Hle by lia.
    replace (t s + Z.of_nat 1 * increment) with (t s + increment) in Hin by lia.
    apply Z.leb_le in Hle. rewrite Hle, (add_in_range _ _ Hin).
    rewrite IH; cbn [timelist t].
    + rewrite ticks_cons, <- app_assoc. do 2 f_equal. lia.
    + intros i Hi. destruct (Hok (S i) ltac:(lia)) as [H1 H2].
      split; [lia|]. replace (t s + increment + Z.of_nat (S i) * increment)
        with (t s + Z.of_nat (S (S i)) * increment) by lia. done.
Qed.

(** [n] full passes, then the test fails: the loop is left with [n] instants. *)
Lemma while_loop_break n end_time increment s :
  (forall i : nat, (i < n)%nat ->
     t s + Z.of_nat i * increment <= end_time
     /\ Py.in_range (t s + Z.of_nat (S i) * increment)) ->
  end_time < t s + Z.of_nat n * increment ->
  while_loop (S n) end_time increment s
  = Break (LoopState (timelist s ++ ticks (t s) increment n)
                     (t s + Z.of_nat n * increment)).
Proof.
  intros Hok Hgt. replace (S n) with (n + 1)%nat by lia.
  rewrite while_loop_plus, while_loop_continue by done.
  cbn [while_loop]. unfold loop_step. cbn [t timelist].
  apply Z.leb_gt in Hgt. by rewrite Hgt.
Qed.

(** [n] full passes, then the test holds once more and the addition leaves
    the range of [datetime]: the instant was appended, [t] was not assigned. *)
Lemma while_loop_overflow n end_time increment s :
  (forall i : nat, (i < n)%nat ->
     t s + Z.of_nat i * increment <= end_time
     /\ Py.in_range (t s + Z.of_nat (S i) * increment)) ->
  t s + Z.of_nat n * increment <= end_time ->
  ~ Py.in_range (t s + Z.of_nat (S n) * increment) ->
  while_loop (S n) end_time increment s
  = Overflow (LoopState (timelist s ++ ticks (t s) increment (S n))
                        (t s + Z.of_nat n * increment)).
Proof.
  intros Hok Hle Hout. replace (S n) with (n + 1)%nat at 1 by lia.
  rewrite while_loop_plus, while_loop_continue by done.
  cbn [while_loop]. unfold loop_step. cbn [t timelist].
  apply Z.leb_le in Hle. rewrite Hle, add_out_of_range.
  - by rewrite ticks_snoc, app_assoc.
  - intros Hin. apply Hout.
    replace (t s + Z.of_nat (S n) * increment)
      with (t s + Z.of_nat n * increment + increment) by lia. done.
Qed.

Lemma div_bounds (a b : Z) : 0 < b -> b * (a / b) <= a < b * (a / b + 1).
Proof.
  intros Hb. pose proof (Z.mul_div_le a b Hb).
  pose proof (Z.mul_succ_div_gt a b Hb). lia.
Qed.

Lemma timedelta_Some (minutes d : Z) : Py.timedelta minutes = Some d -> d = minutes.
Proof. unfold Py.timedelta. cbv zeta. case_match; naive_solver. Qed.

(** Every increment that keeps one addition inside the range of [datetime]
    is a [timedelta]. *)
Lemma timedelta_small (minutes : Z) :
  - Py.datetime_max <= minutes <= Py.datetime_max ->
  Py.timedelta minutes = Some minutes.
Proof.
  intros Hm. unfold Py.timedelta. cbv zeta.
  assert (- Py.max_delta_days <= minutes / Py.minutes_per_day <= Py.max_delta_days)
    as [Hlo Hhi].
  { unfold Py.datetime_max, Py.max_delta_days, Py.minutes_per_day in *.
    split.
    - apply Z.div_le_lower_bound; lia.
    - apply Z.div_le_upper_bound; lia. }
  apply Z.leb_le in Hlo, Hhi. by rewrite Hlo, Hhi.
Qed.

(** *** A positive increment *)

Lemma positive_passes start_time end_time increment (i : nat) :
  0 < increment -> start_time <= end_time ->
  (i < Z.to_nat (count start_time end_time increment))%nat ->
  start_time + Z.of_nat i * increment <= end_time.
Proof.
  unfold count. intros Hinc Hwin Hi.
  pose proof (div_bounds (end_time - start_time) increment Hinc).
  assert (0 <= (end_time - start_time) / increment) by (apply Z.div_pos; lia).
  nia.
Qed.

Lemma positive_break start_time end_time increment fuel :
  Py.in_range start_time -> start_time <= end_time -> 0 < increment ->
  start_time + count start_time end_time increment * increment <= Py.datetime_max ->
  (Z.to_nat (count start_time end_time increment) < fuel)%nat ->
  while_loop fuel end_time increment (LoopState [] start_time)
  = Break (LoopState
      (ticks start_time increment (Z.to_nat (count start_time end_time increment)))
      (start_time + count start_time end_time increment * increment)).
Proof.
  intros [Hlo Hhi] Hwin Hinc Hlast Hfuel.
  set (n := Z.to_nat (count start_time end_time increment)).
  pose proof (div_bounds (end_time - start_time) increment Hinc) as Hdiv.
  assert (0 <= (end_time - start_time) / increment) as Hq by (apply Z.div_pos; lia).
  assert (Z.of_nat n = count start_time end_time increment) as Hn
    by (unfold n, count; lia).
  apply (while_loop_done (S n)); [|done|lia].
  rewrite while_loop_break; cbn [t timelist].
  - by rewrite Hn.
  - intros i Hi. split; [by apply positive_passes|].
    unfold Py.in_range. unfold count in *. nia.
  - unfold count in *. nia.
Qed.

Lemma positive_overflow start_time end_time increment fuel :
  Py.in_range start_time -> start_time <= end_time -> 0 < increment ->
  Py.datetime_max < start_time + count start_time end_time increment * increment ->
  (Z.to_nat ((Py.datetime_max - start_time) / increment) < fuel)%nat ->
  exists s, while_loop fuel end_time increment (LoopState [] start_time) = Overflow s.
Proof.
  intros [Hlo Hhi] Hwin Hinc Hlast Hfuel.
  set (k := (Py.datetime_max - start_time) / increment) in *.
  pose proof (div_bounds (end_time - start_time) increment Hinc) as Hdiv.
  pose proof (div_bounds (Py.datetime_max - start_time) increment Hinc) as Hk.
  fold k in Hk.
  assert (0 <= k) as Hk0 by (apply Z.div_pos; lia).
  assert (0 <= (end_time - start_time) / increment) as Hq by (apply Z.div_pos; lia).
  assert (k <= (end_time - start_time) / increment) as Hkq
    by (unfold count in *; nia).
  eexists. apply (while_loop_done (S (Z.to_nat k))); [|done|lia].
  apply while_loop_overflow; cbn [t timelist].
  - intros i Hi. split; [|unfold Py.in_range]; nia.
  - nia.
  - unfold Py.in_range. nia.
Qed.

(** *** A negative increment *)

Lemma negative_overflow start_time end_time increment fuel :
  Py.in_range start_time -> start_time <= end_time -> increment < 0 ->
  let k := (start_time - Py.datetime_min) / - increment in
  while_loop fuel end_time increment (LoopState [] start_time)
  = if decide (fuel <= Z.to_nat k)%nat
    then Continue (LoopState (ticks start_time increment fuel)
                             (start_time + Z.of_nat fuel * increment))
    else Overflow (LoopState (ticks start_time increment (S (Z.to_nat k)))
                             (start_time + k * increment)).
Proof.
  intros [Hlo Hhi] Hwin Hinc k.
  assert (0 < - increment) as Hpos by lia.
  pose proof (div_bounds (start_time - Py.datetime_min) (- increment) Hpos) as Hk.
  fold k in Hk.
  assert (0 <= k) as Hk0 by (apply Z.div_pos; lia).
  case_decide as Hfuel.
  - rewrite while_loop_continue; [done|]. cbn [t timelist].
    intros i Hi. split; [|unfold Py.in_range]; nia.
  - apply (while_loop_done (S (Z.to_nat k))); [|done|lia].
    rewrite while_loop_overflow; cbn [t timelist].
    + do 3 f_equal. lia.
    + intros i Hi. split; [|unfold Py.in_range]; nia.
    + nia.
    + unfold Py.in_range. nia.
Qed.

(** *** The increment zero *)

Lemma ticks_zero start_time n : ticks start_time 0 n = replicate n start_time.
Proof.
  induction n as [|n IH]; [done|].
  rewrite ticks_snoc, IH, replicate_S_end. do 2 f_equal. lia.
Qed.

Lemma zero_continue start_time end_time fuel :
  Py.in_range start_time -> start_time <= end_time ->
  while_loop fuel end_time 0 (LoopState [] start_time)
  = Continue (LoopState (replicate fuel start_time) start_time).
Proof.
  intros Hin Hwin. rewrite while_loop_continue; cbn [t timelist].
  - rewrite ticks_zero. cbn. do 2 f_equal. lia.
  - intros i _. split; [lia|]. by replace (start_time + Z.of_nat (S i) * 0)
      with start_time by lia.
Qed.

(** *** The list is strictly increasing *)

Lemma increasing_after_sorted r :
  increasing_after r -> StronglySorted Z.lt (timelist (state_of r)).
Proof. destruct r as [s|s|s]; cbn; [by intros [? _]..|done]. Qed.

Lemma StronglySorted_snoc (l : list Z) (x : Z) :
  StronglySorted Z.lt l -> Forall (fun y => y < x) l ->
  StronglySorted Z.lt (l ++ [x]).
Proof.
  intros Hl Hx. apply StronglySorted_app_2; [|done|repeat constructor].
  intros y x' Hy ->%list_elem_of_singleton.
  by eapply Forall_forall in Hx.
Qed.

Lemma StronglySorted_lt_NoDup (l : list Z) : StronglySorted Z.lt l -> NoDup l.
Proof.
  induction 1 as [|x l _ IH Hx]; constructor; [|done].
  intros Hin. eapply Forall_forall in Hx; [|done]. lia.
Qed.

Lemma loop_step_increasing end_time increment s :
  0 < increment -> increasing_below s ->
  increasing_after (loop_step end_time increment s).
Proof.
  intros Hinc [Hsorted Hbelow]. unfold loop_step.
  destruct (t s <=? end_time); [|done].
  destruct (Py.add (t s) increment) as [t'|] eqn:Hadd; cbn.
  - apply add_Some in Hadd as [-> _]. split; cbn.
    + by apply StronglySorted_snoc.
    + apply Forall_app. split.
      * eapply Forall_impl; [done|]. cbn. lia.
      * repeat constructor. lia.
  - by apply StronglySorted_snoc.
Qed.

Lemma while_loop_increasing n end_time increment s :
  0 < increment -> increasing_below s ->
  increasing_after (while_loop n end_time increment s).
Proof.
  intros Hinc. revert s. induction n as [|n IH]; intros s Hs; [done|].
  cbn [while_loop].
  pose proof (loop_step_increasing end_time increment s Hinc Hs) as Hstep.
  destruct (loop_step end_time increment s); [by apply IH|done..].
Qed.

Lemma increasing_below_initial start_time :
  increasing_below (LoopState [] start_time).
Proof. split; constructor. Qed.

(** *** First and last instant *)

Lemma head_ticks start_time increment n :
  head (ticks start_time increment (S n)) = Some start_time.
Proof. by rewrite ticks_cons. Qed.

Lemma last_ticks start_time increment n :
  last (ticks start_time increment (S n))
  = Some (start_time + Z.of_nat n * increment).
Proof. by rewrite ticks_snoc, last_snoc. Qed.

End TimeList.

(** ** The checks of the inputs *)

Section Validation.

Context `{PyLib} `{Engine}.

Implicit Types (p : params) (w : world) (e : exn).

(** *** The range of [datetime] *)

Lemma days_before_year_succ (y : Z) :
  Py.days_before_year (y + 1)
  = Py.days_before_year y + 365 + (if Py.is_leap y then 1 else 0).
Proof.
  unfold Py.days_before_year, Py.is_leap. cbv zeta.
  replace (y + 1 - 1) with (y - 1 + 1) by lia.
  destruct (y mod 4 =? 0) eqn:H4; destruct (y mod 100 =? 0) eqn:H100;
    destruct (y mod 400 =? 0) eqn:H400; cbn;
    rewrite ?Z.eqb_eq, ?Z.eqb_neq in *.
  all: Z.to_euclidean_division_equations; lia.
Qed.

Lemma days_before_year_mono (y1 y2 : Z) :
  y1 <= y2 -> Py.days_before_year y1 <= Py.days_before_year y2.
Proof.
  unfold Py.days_before_year. cbv zeta. intros.
  Z.to_euclidean_division_equations; lia.
Qed.

Lemma day_of_year_bounds (y m d : Z) :
  1 <= m <= 12 -> 1 <= d <= Py.days_in_month y m ->
  1 <= Py.days_before_month y m + d <= 365 + (if Py.is_leap y then 1 else 0).
Proof.
  intros Hm. unfold Py.days_in_month, Py.days_before_month.
  destruct (Py.is_leap y); months m; eval_to_nat; cbn; lia.
Qed.

(** The constructor yields instants of the type's range only. *)
Lemma datetime_in_range (y m d hh mm : Z) (i : Py.instant) :
  Py.datetime y m d hh mm = Some i -> Py.in_range i.
Proof.
  unfold Py.datetime. case_match eqn:Hok; [|done]. intros [= <-].
  repeat (apply andb_prop in Hok as [Hok ?]).
  rewrite ?Z.leb_le in *.
  pose proof (day_of_year_bounds y m d ltac:(lia) ltac:(lia)) as Hdoy.
  pose proof (days_before_year_succ y) as Hsucc.
  pose proof (days_before_year_mono Py.MINYEAR y ltac:(lia)) as Hlo.
  pose proof (days_before_year_mono (y + 1) (Py.MAXYEAR + 1) ltac:(lia)) as Hhi.
  change (Py.days_before_year Py.MINYEAR) with 0 in Hlo.
  change (Py.days_before_year (Py.MAXYEAR + 1)) with 3652059 in Hhi.
  unfold Py.in_range, Py.datetime_min, Py.datetime_max, Py.ymd2ord,
    Py.minutes_per_day, Py.MINYEAR, Py.MAXYEAR in *.
  lia.
Qed.

Lemma instant_of_in_range (day_input time_input : string) (i : Py.instant) :
  instant_of day_input time_input = Some i -> Py.in_range i.
Proof.
  unfold instant_of. intros Hi.
  destruct (resolve_day day_input) as [d|]; [|done]. cbn in Hi.
  destruct (strptime_HM time_input) as [hm|]; [|done]. cbn in Hi.
  by eapply datetime_in_range.
Qed.

(** *** The order of [datetime] *)

Lemma days_before_month_next (y m1 m2 : Z) :
  1 <= m1 -> m1 < m2 -> m2 <= 12 ->
  Py.days_before_month y m1 + Py.days_in_month y m1 <= Py.days_before_month y m2.
Proof.
  intros H1 Hlt H12. unfold Py.days_in_month, Py.days_before_month.
  destruct (Py.is_leap y); months m1; months m2; try lia; eval_to_nat; cbn; lia.
Qed.

Lemma datetime_Some (y m d hh mm : Z) (i : Py.instant) :
  Py.datetime y m d hh mm = Some i ->
  i = Py.minutes_per_day * Py.ymd2ord y m d + 60 * hh + mm
  /\ Py.MINYEAR <= y <= Py.MAXYEAR /\ 1 <= m <= 12
  /\ 1 <= d <= Py.days_in_month y m /\ 0 <= hh <= 23 /\ 0 <= mm <= 59.
Proof.
  unfold Py.datetime. case_match eqn:Hok; [|done]. intros [= <-].
  repeat (apply andb_prop in Hok as [Hok ?]).
  rewrite ?Z.leb_le in *. lia.
Qed.

(** The minute count orders the instants as Python orders the datetimes. *)
Lemma datetime_lt (y1 m1 d1 h1 n1 y2 m2 d2 h2 n2 : Z) (i1 i2 : Py.instant) :
  Py.datetime y1 m1 d1 h1 n1 = Some i1 ->
  Py.datetime y2 m2 d2 h2 n2 = Some i2 ->
  fields_lt (y1, m1, d1, h1, n1) (y2, m2, d2, h2, n2) -> i1 < i2.
Proof.
  intros (-> & Hy1 & Hm1 & Hd1 & Hh1 & Hn1)%datetime_Some
         (-> & Hy2 & Hm2 & Hd2 & Hh2 & Hn2)%datetime_Some Hlt.
  unfold Py.minutes_per_day, Py.ymd2ord. cbn in Hlt.
  destruct Hlt as [Hy|[-> [Hm|[-> Hlt]]]].
  - pose proof (day_of_year_bounds y1 m1 d1 Hm1 Hd1).
    pose proof (day_of_year_bounds y2 m2 d2 Hm2 Hd2).
    pose proof (days_before_year_succ y1).
    pose proof (days_before_year_mono (y1 + 1) y2 ltac:(lia)). lia.
  - pose proof (days_before_month_next y2 m1 m2 ltac:(lia) Hm ltac:(lia)). lia.
  - lia.
Qed.

Lemma fields_trichotomy (a b : Z * Z * Z * Z * Z) :
  fields_lt a b \/ a = b \/ fields_lt b a.
Proof.
  destruct (decide (a = b)) as [->|Hne]; [by right; left|].
  destruct a as [[[[y1 m1] d1] h1] n1], b as [[[[y2 m2] d2] h2] n2].
  assert (y1 <> y2 \/ m1 <> m2 \/ d1 <> d2 \/ h1 <> h2 \/ n1 <> n2) as Hsome.
  { destruct (decide (y1 = y2)) as [->|]; [|by left].
    destruct (decide (m1 = m2)) as [->|]; [|by right; left].
    destruct (decide (d1 = d2)) as [->|]; [|by right; right; left].
    destruct (decide (h1 = h2)) as [->|]; [|by right; right; right; left].
    destruct (decide (n1 = n2)) as [->|]; [done|by right; right; right; right]. }
  assert (fields_lt (y1, m1, d1, h1, n1) (y2, m2, d2, h2, n2)
          \/ fields_lt (y2, m2, d2, h2, n2) (y1, m1, d1, h1, n1)) as [?|?]
    by (cbn; lia); [by left|by right; right].
Qed.

(** [==] and [<] on the datetimes are [=] and [<] on their minute counts. *)
Lemma datetime_compare (y1 m1 d1 h1 n1 y2 m2 d2 h2 n2 : Z) (i1 i2 : Py.instant) :
  Py.datetime y1 m1 d1 h1 n1 = Some i1 ->
  Py.datetime y2 m2 d2 h2 n2 = Some i2 ->
  (i1 < i2 <-> fields_lt (y1, m1, d1, h1, n1) (y2, m2, d2, h2, n2))
  /\ (i1 = i2 <-> (y1, m1, d1, h1, n1) = (y2, m2, d2, h2, n2)).
Proof.
  intros H1 H2.
  pose proof (datetime_lt _ _ _ _ _ _ _ _ _ _ _ _ H1 H2) as H12.
  pose proof (datetime_lt _ _ _ _ _ _ _ _ _ _ _ _ H2 H1) as H21.
  destruct (fields_trichotomy (y1, m1, d1, h1, n1) (y2, m2, d2, h2, n2))
    as [Hlt|[Heq|Hgt]].
  - specialize (H12 Hlt). split; split; intros; try done; try lia.
    simplify_eq. cbn in Hlt. lia.
  - simplify_eq. split; split; intros Hi; try done; try lia.
    cbn in Hi. lia.
  - specialize (H21 Hgt). split; split; intros Hi; try lia.
    + specialize (H12 Hi). lia.
    + simplify_eq. cbn in Hgt. lia.
Qed.

(** *** What the checks do *)

(** When every check passes: nothing but the licence check-out was logged,
    the window is the two composed instants, start before end, and the two
    days are of one kind (and one weekday, if generic). *)
Lemma process_inputs_Ok p w w' start_time end_time :
  process_inputs p w = (w', Ok (start_time, end_time)) ->
  logged [CheckOutExtension] w w'
  /\ instant_of (start_day_input p) (start_time_input p) = Some start_time
  /\ instant_of (end_day_input p) (end_time_input p) = Some end_time
  /\ start_time < end_time
  /\ generic (start_day_input p) = generic (end_day_input p)
  /\ (generic (start_day_input p) = true ->
      days !! start_day_input p = days !! end_day_input p).
Proof.
  unfold_inputs. destruct w. unfold_monad. cases.
  all: intros; simplify_eq/=; decided; simplify_eq/=.
  all: repeat split; try done; try lia.
Qed.

(** A validated window: two instants of the range of [datetime], the start
    strictly before the end. *)
Lemma validated_window p w start_time end_time :
  (process_inputs p w).2 = Ok (start_time, end_time) ->
  Py.in_range start_time /\ Py.in_range end_time /\ start_time < end_time.
Proof.
  destruct (process_inputs p w) as [w' r] eqn:Hrun. cbn. intros ->.
  apply process_inputs_Ok in Hrun as (_ & Hs & He & Hlt & _).
  eauto using instant_of_in_range.
Qed.

(** When a check fails: [CustomError] right after one [AddError], or the
    [ValueError] of a day or time that does not parse. *)
Lemma process_inputs_Raise p w w' e :
  process_inputs p w = (w', Raise e) ->
  (e = CustomError
   /\ exists msg, logged [AddError msg] w w'
                  \/ logged [CheckOutExtension; AddError msg] w w')
  \/ (e = ValueError
      /\ logged [CheckOutExtension] w w'
      /\ (instant_of (start_day_input p) (start_time_input p) = None
          \/ instant_of (end_day_input p) (end_time_input p) = None)).
Proof.
  unfold_inputs. destruct w. unfold_monad. cases.
  all: intros; simplify_eq/=; decided; simplify_eq/=.
  all: rewrite <- ?app_assoc; cbn.
  all: try (left; split; [done|]; eexists; by (left + right)).
  all: try (right; repeat split; try done; by (left + right)).
Qed.

Lemma process_inputs_no_loop p w w' :
  process_inputs p w <> (w', OutOfFuel).
Proof. unfold_inputs. destruct w. unfold_monad. cases. Qed.

(** The checks read the parameters and the layer, not the log. *)
Lemma process_inputs_frame p w :
  exists cs, forall l,
    process_inputs p (set_log l w)
    = (set_log (l ++ cs) w, (process_inputs p w).2).
Proof.
  unfold_inputs. destruct w. unfold_monad. cases.
  all: eexists; intros l; rewrite <- ?app_assoc; cbn; done.
Qed.

(** No check reads the increment. *)
Lemma process_inputs_ignores_increment p (increment : Z) :
  process_inputs
    (Params (output_feature_class p) (start_day_input p) (start_time_input p)
            (end_day_input p) (end_time_input p) increment)
  = process_inputs p.
Proof. done. Qed.

End Validation.

(** ** The field, the solve loop and the script *)

Section Solving.

Context `{PyLib} `{Engine}.

Implicit Types (p : params) (w : world) (e : exn) (t : Py.instant).

Lemma fields_changed_refl w : fields_changed w w.
Proof. exists [], (polygon_fields w). destruct w; cbn. by rewrite app_nil_r. Qed.

Lemma fields_changed_trans w1 w2 w3 :
  fields_changed w1 w2 -> fields_changed w2 w3 -> fields_changed w1 w3.
Proof.
  intros (cs1 & f1 & -> & Hcs1) (cs2 & f2 & -> & Hcs2).
  exists (cs1 ++ cs2), f2. destruct w1; cbn. rewrite app_assoc.
  split; [done|]. by apply Forall_app.
Qed.

Lemma for_each_fields {A} (l : list A) (body : A -> M unit) w :
  (forall x w1, exists w2, body x w1 = (w2, Ok tt) /\ fields_changed w1 w2) ->
  exists w', for_each l body w = (w', Ok tt) /\ fields_changed w w'.
Proof.
  intros Hbody. revert w. induction l as [|x l IH]; intros w.
  - exists w. split; [done|apply fields_changed_refl].
  - destruct (Hbody x w) as (w1 & Hx & H1). destruct (IH w1) as (w2 & Hl & H2).
    exists w2. cbn. unfold bind. rewrite Hx. split; [done|].
    by eapply fields_changed_trans.
Qed.

Lemma prepare_time_field_run w :
  exists w', prepare_time_field w = (w', Ok tt) /\ fields_changed w w'.
Proof.
  unfold prepare_time_field.
  assert (forall x w1, exists w2,
            delete_unless_date x w1 = (w2, Ok tt) /\ fields_changed w1 w2)
    as Hbody.
  { intros x w1. unfold delete_unless_date, delete_field. case_match.
    - eexists. unfold_monad. split; [done|].
      destruct w1. do 2 eexists. cbn. rewrite <- app_assoc.
      split; [reflexivity|]. by repeat constructor.
    - eexists. split; [done|apply fields_changed_refl]. }
  unfold bind at 1. unfold gets at 1.
  destruct (for_each_fields (filter (fun f => f.1 = time_field) (polygon_fields w))
              delete_unless_date w Hbody) as (w1 & Hrun & H1).
  unfold bind at 1. rewrite Hrun.
  eexists. split; [done|]. eapply fields_changed_trans; [done|].
  unfold add_field_to_analysis_layer. unfold_monad.
  case_match.
  - exists [AddFieldToAnalysisLayer time_field], (polygon_fields w1).
    destruct w1; cbn. split; [done|]. by repeat constructor.
  - destruct w1. do 2 eexists. cbn. split; [reflexivity|]. by repeat constructor.
Qed.

Lemma solve_at_run t w :
  solve_at t w
  = (World (network_license w) (dataType w) (solverName w) (polygon_fields w)
       (Some t) (tagged t) (Some (default [] (output w) ++ tagged t))
       (log w ++ solve_calls (bool_decide (is_Some (output w))) t),
     Ok tt).
Proof.
  unfold solve_at, solve, calculate_field, copy_features, append, tagged,
    solve_calls.
  destruct w as [? ? ? ? ? ? [old|] ?]; unfold_monad;
    rewrite <- ?app_assoc, <- ?list_fmap_compose; cbn; done.
Qed.

Lemma for_each_solve_at (l : list Py.instant) w :
  exists w',
    for_each l solve_at w = (w', Ok tt)
    /\ output w' = accumulated (output w) l
    /\ log w' = log w ++ loop_calls (bool_decide (is_Some (output w))) l
    /\ polygon_fields w' = polygon_fields w.
Proof.
  revert w. induction l as [|t l IH]; intros w.
  - exists w. cbn. by rewrite app_nil_r.
  - cbn [for_each]. unfold bind at 1. rewrite solve_at_run.
    edestruct IH as (w' & -> & Hout & Hlog & Hfields).
    cbn in Hout, Hlog, Hfields.
    eexists. split; [done|]. rewrite Hout, Hlog, Hfields.
    rewrite <- !app_assoc. split; [|done].
    destruct l; cbn; [by rewrite app_nil_r|by rewrite <- app_assoc].
Qed.


Lemma set_log_log w : set_log (log w) w = w.
Proof. by destruct w. Qed.

Lemma set_log_set_log (l l' : list call) w : set_log l (set_log l' w) = set_log l w.
Proof. by destruct w. Qed.

Lemma set_log_inj (l l' : list call) w : set_log l w = set_log l' w -> l = l'.
Proof. destruct w. by intros [= ->]. Qed.

Lemma process_inputs_Ok_log p w start_time end_time (l : list call) :
  (process_inputs p w).2 = Ok (start_time, end_time) ->
  process_inputs p (set_log l w)
  = (set_log (l ++ [CheckOutExtension]) w, Ok (start_time, end_time)).
Proof.
  intros Hok. destruct (process_inputs_frame p w) as [cs Hcs].
  rewrite Hcs, Hok. pose proof (Hcs (log w)) as Hw.
  rewrite set_log_log, Hok in Hw.
  apply process_inputs_Ok in Hw as [Hlog _]. unfold logged in Hlog.
  apply set_log_inj, app_inv_head in Hlog. by subst cs.
Qed.

Lemma process_inputs_Raise_log p w e (l : list call) :
  (process_inputs p w).2 = Raise e ->
  exists cs,
    process_inputs p (set_log l w) = (set_log (l ++ cs) w, Raise e)
    /\ ((e = CustomError
         /\ exists msg, cs = [AddError msg] \/ cs = [CheckOutExtension; AddError msg])
        \/ (e = ValueError /\ cs = [CheckOutExtension])).
Proof.
  intros Hraise. destruct (process_inputs_frame p w) as [cs Hcs].
  exists cs. rewrite Hcs, Hraise. split; [done|].
  pose proof (Hcs (log w)) as Hw. rewrite set_log_log, Hraise in Hw.
  apply process_inputs_Raise in Hw as [[-> [msg Hlog]]|(-> & Hlog & _)];
    unfold logged in Hlog.
  - left. split; [done|]. exists msg.
    destruct Hlog as [Hlog|Hlog]; apply set_log_inj, app_inv_head in Hlog; eauto.
  - right. apply set_log_inj, app_inv_head in Hlog. done.
Qed.

(** The script when a check fails. *)
Lemma script_Raise fuel p w e :
  (process_inputs p w).2 = Raise e ->
  exists cs,
    script fuel p w
    = (set_log (log w ++ [CheckOutExtension] ++ cs ++ [CheckInExtension]) w,
       match e with CustomError => Ok tt | _ => Raise e end)
    /\ ((e = CustomError
         /\ exists msg, cs = [AddError msg] \/ cs = [CheckOutExtension; AddError msg])
        \/ (e = ValueError /\ cs = [CheckOutExtension])).
Proof.
  intros Hraise.
  destruct (process_inputs_Raise_log p w e (log w ++ [CheckOutExtension]) Hraise)
    as (cs & Hrun & Hcs).
  exists cs. split; [|done].
  unfold script, body. unfold bind at 1 2. unfold arcpy at 1, modify at 1.
  rewrite Hrun. destruct w; destruct e; unfold_monad; by rewrite <- !app_assoc.
Qed.

(** The script when every check passes, by what the [while] loop does. *)
Lemma script_OutOfFuel fuel p w start_time end_time :
  (process_inputs p w).2 = Ok (start_time, end_time) ->
  make_timelist fuel start_time end_time (increment_input p) = OutOfFuel ->
  script fuel p w
  = (set_log (log w ++ [CheckOutExtension; CheckOutExtension]) w, OutOfFuel).
Proof.
  intros Hok Hloop. unfold script, body.
  unfold bind at 1 2 3. unfold arcpy at 1, modify at 1.
  rewrite (process_inputs_Ok_log _ _ _ _ _ Hok). cbn [fst snd]. unfold lift.
  rewrite Hloop. destruct w; cbn. by rewrite <- app_assoc.
Qed.

Lemma script_Overflow fuel p w start_time end_time :
  (process_inputs p w).2 = Ok (start_time, end_time) ->
  make_timelist fuel start_time end_time (increment_input p) = Raise OverflowError ->
  script fuel p w
  = (set_log (log w ++ [CheckOutExtension; CheckOutExtension; CheckInExtension]) w,
     Raise OverflowError).
Proof.
  intros Hok Hloop. unfold script, body.
  unfold bind at 1 2 3. unfold arcpy at 1, modify at 1.
  rewrite (process_inputs_Ok_log _ _ _ _ _ Hok). cbn [fst snd]. unfold lift.
  rewrite Hloop. destruct w; unfold_monad. by rewrite <- !app_assoc.
Qed.

Lemma script_Ok fuel p w start_time end_time (timelist : list Py.instant) :
  (process_inputs p w).2 = Ok (start_time, end_time) ->
  make_timelist fuel start_time end_time (increment_input p) = Ok timelist ->
  exists w' cs,
    script fuel p w = (w', Ok tt)
    /\ output w' = accumulated (output w) timelist
    /\ log w'
       = log w ++ [CheckOutExtension; CheckOutExtension] ++ cs
         ++ [AddMessage "Solving Service Area at time..."]
         ++ loop_calls (bool_decide (is_Some (output w))) timelist
         ++ [CheckInExtension]
    /\ Forall field_call cs.
Proof.
  intros Hok Hloop. unfold script, body.
  unfold bind at 1 2 3. unfold arcpy at 1, modify at 1.
  rewrite (process_inputs_Ok_log _ _ _ _ _ Hok). cbn [fst snd]. unfold lift.
  rewrite Hloop.
  set (w0 := set_log _ w).
  destruct (prepare_time_field_run w0) as (w1 & Hprep & cs & fields & -> & Hcs).
  unfold bind at 1. rewrite Hprep. unfold solve_loop.
  unfold bind at 1. unfold arcpy at 1, modify at 1.
  edestruct for_each_solve_at as (w2 & -> & Hout & Hlog & _).
  eexists _, cs. split; [by unfold_monad|].
  destruct w2, w; cbn in *. subst. rewrite <- !app_assoc. done.
Qed.

End Solving.

(** ** The claims about the time list *)

Section TimeListClaims.

Implicit Types (start_time end_time increment : Z).

Lemma make_timelist_positive start_time end_time increment fuel :
  Py.in_range start_time -> start_time <= end_time -> 0 < increment ->
  start_time + count start_time end_time increment * increment <= Py.datetime_max ->
  (Z.to_nat (count start_time end_time increment) < fuel)%nat ->
  make_timelist fuel start_time end_time increment
  = Ok (ticks start_time increment (Z.to_nat (count start_time end_time increment))).
Proof.
  intros Hin Hwin Hinc Hlast Hfuel. unfold make_timelist.
  assert (0 <= (end_time - start_time) / increment) by (apply Z.div_pos; lia).
  rewrite timedelta_small.
  - by rewrite positive_break.
  - destruct Hin as [Hlo _]. unfold Py.datetime_min, count in *. nia.
Qed.

Lemma make_timelist_overflow start_time end_time increment fuel :
  Py.in_range start_time -> start_time <= end_time -> 0 < increment ->
  Py.datetime_max < start_time + count start_time end_time increment * increment ->
  (Z.to_nat ((Py.datetime_max - start_time) / increment) < fuel)%nat ->
  make_timelist fuel start_time end_time increment = Raise OverflowError.
Proof.
  intros Hin Hwin Hinc Hlast Hfuel. unfold make_timelist.
  destruct (Py.timedelta increment) as [d|] eqn:Hd; [|done].
  apply timedelta_Some in Hd as ->.
  by destruct (positive_overflow start_time end_time increment fuel) as [s ->].
Qed.

(** No list is ever returned when the stepping leaves the range. *)
Lemma make_timelist_never start_time end_time increment fuel l :
  Py.in_range start_time -> start_time <= end_time -> 0 < increment ->
  Py.datetime_max < start_time + count start_time end_time increment * increment ->
  make_timelist fuel start_time end_time increment <> Ok l.
Proof.
  intros Hin Hwin Hinc Hlast Hok.
  set (k := Z.to_nat ((Py.datetime_max - start_time) / increment)).
  pose proof (make_timelist_overflow start_time end_time increment (fuel + S k)
    Hin Hwin Hinc Hlast ltac:(lia)) as Hover.
  unfold make_timelist in *.
  destruct (Py.timedelta increment) as [d|]; [|done].
  rewrite while_loop_plus in Hover.
  destruct (while_loop fuel end_time d _); simplify_eq.
Qed.


Lemma make_timelist_zero start_time end_time fuel :
  Py.in_range start_time -> start_time <= end_time ->
  make_timelist fuel start_time end_time 0 = OutOfFuel.
Proof.
  intros Hin Hwin. unfold make_timelist.
  rewrite (timedelta_small 0) by (unfold Py.datetime_max; lia).
  by rewrite zero_continue.
Qed.

(** A negative increment: the loop is still running after [fuel] passes, or
    it has raised [OverflowError]; it never returns. *)
Lemma make_timelist_negative start_time end_time increment fuel :
  Py.in_range start_time -> start_time <= end_time -> increment < 0 ->
  make_timelist fuel start_time end_time increment
  = match Py.timedelta increment with
    | None => Raise OverflowError
    | Some _ =>
        if decide (fuel <= Z.to_nat ((start_time - Py.datetime_min) / - increment))%nat
        then OutOfFuel else Raise OverflowError
    end.
Proof.
  intros Hin Hwin Hinc. unfold make_timelist.
  destruct (Py.timedelta increment) as [d|] eqn:Hd; [|done].
  apply timedelta_Some in Hd as ->.
  rewrite negative_overflow by done. cbv zeta. by case_decide.
Qed.

Lemma make_timelist_sorted start_time end_time increment fuel l :
  0 < increment ->
  make_timelist fuel start_time end_time increment = Ok l ->
  StronglySorted Z.lt l.
Proof.
  intros Hinc. unfold make_timelist.
  destruct (Py.timedelta increment) as [d|] eqn:Hd; [|done].
  apply timedelta_Some in Hd as ->.
  pose proof (while_loop_increasing fuel end_time increment
    (LoopState [] start_time) Hinc (increasing_below_initial start_time)) as Hinv.
  destruct (while_loop _ _ _ _) as [s|s|s]; [done| |done].
  intros [= <-]. by destruct Hinv.
Qed.

(** C1, amended. For every validated window (a start instant of the range of
    [datetime], strictly before the end instant) and every strictly positive
    increment: when the instant the loop computes last,
    [start + (floor((end - start) / increment) + 1) * increment], is still a
    [datetime], the loop returns a time list of
    [floor((end - start) / increment) + 1] instants; when it is not,
    [t += increment] raises [OverflowError] and no time list is built. *)
Theorem timelist_length start_time end_time increment :
  Py.in_range start_time -> start_time < end_time -> 0 < increment ->
  (start_time + count start_time end_time increment * increment <= Py.datetime_max ->
   exists l,
     (forall fuel, (Z.to_nat (count start_time end_time increment) < fuel)%nat ->
        make_timelist fuel start_time end_time increment = Ok l)
     /\ Z.of_nat (length l) = (end_time - start_time) / increment + 1)
  /\ (Py.datetime_max < start_time + count start_time end_time increment * increment ->
      (forall fuel l, make_timelist fuel start_time end_time increment <> Ok l)
      /\ exists n, forall fuel, (n < fuel)%nat ->
           make_timelist fuel start_time end_time increment = Raise OverflowError).
Proof.
  intros Hin Hwin Hinc. split; intros Hlast.
  - eexists. split.
    + intros fuel Hfuel. apply make_timelist_positive; [done|lia|done..].
    + rewrite length_ticks. unfold count.
      assert (0 <= (end_time - start_time) / increment) by (apply Z.div_pos; lia).
      lia.
  - split.
    + intros fuel l. apply make_timelist_never; [done|lia|done..].
    + eexists. intros fuel Hfuel.
      apply make_timelist_overflow; [done|lia|done..].
Qed.

Lemma timelist_length_witness :
  exists l,
    (forall fuel, (3 < fuel)%nat -> make_timelist fuel 998778720 998778780 30 = Ok l)
    /\ Z.of_nat (length l) = (998778780 - 998778720) / 30 + 1.
Proof.
  apply (timelist_length 998778720 998778780 30);
    unfold Py.in_range, Py.datetime_min, Py.datetime_max; vm_compute; try done.
  all: split; discriminate.
Defined.

(** C1 as stated fails at the upper end of the range of [datetime]: from
    9999-12-31 23:00 to 23:59 in steps of 60 minutes the first pass appends
    23:00 and [t += increment] raises; no list is built, whatever the fuel. *)
Lemma timelist_length_counterexample :
  Py.datetime 9999 12 31 23 0 = Some 5258966340
  /\ Py.datetime 9999 12 31 23 59 = Some 5258966399
  /\ 5258966340 < 5258966399
  /\ 0 < 60
  /\ (forall fuel l, make_timelist fuel 5258966340 5258966399 60 <> Ok l)
  /\ (forall fuel, make_timelist (S fuel) 5258966340 5258966399 60 = Raise OverflowError).
Proof.
  split; [done|]. split; [done|]. split; [done|]. split; [done|]. split.
  - intros [|fuel] l; vm_compute; discriminate.
  - intros fuel. vm_compute. done.
Qed.


(** C3, amended. For every validated window and strictly positive increment
    whose stepping stays in the range of [datetime], the time list begins
    with the start instant and ends with
    [start + floor((end - start) / increment) * increment], the last instant
    of the stepping that is not after the end instant; that is the end
    instant exactly when the increment divides [end - start]. *)
Theorem timelist_first_last start_time end_time increment :
  Py.in_range start_time -> start_time < end_time -> 0 < increment ->
  start_time + count start_time end_time increment * increment <= Py.datetime_max ->
  exists l,
    (forall fuel, (Z.to_nat (count start_time end_time increment) < fuel)%nat ->
       make_timelist fuel start_time end_time increment = Ok l)
    /\ head l = Some start_time
    /\ last l = Some (start_time + (end_time - start_time) / increment * increment)
    /\ end_time - increment
       < start_time + (end_time - start_time) / increment * increment <= end_time
    /\ (last l = Some end_time <-> (end_time - start_time) mod increment = 0).
Proof.
  intros Hin Hwin Hinc Hlast.
  pose proof (div_bounds (end_time - start_time) increment Hinc) as Hdiv.
  assert (0 <= (end_time - start_time) / increment) as Hq by (apply Z.div_pos; lia).
  pose proof (Z.div_mod (end_time - start_time) increment ltac:(lia)) as Hmod.
  exists (ticks start_time increment (Z.to_nat (count start_time end_time increment))).
  split.
  { intros fuel Hfuel. apply make_timelist_positive; [done|lia|done..]. }
  replace (Z.to_nat (count start_time end_time increment))
    with (S (Z.to_nat ((end_time - start_time) / increment)))
    by (unfold count; lia).
  rewrite head_ticks, last_ticks, Z2Nat.id by done.
  repeat split; try lia.
  - intros [= Heq]. lia.
  - intros Hzero. f_equal. lia.
Qed.

Lemma timelist_first_last_witness :
  exists l,
    (forall fuel, (3 < fuel)%nat -> make_timelist fuel 998778720 998778780 25 = Ok l)
    /\ head l = Some 998778720
    /\ last l = Some (998778720 + (998778780 - 998778720) / 25 * 25)
    /\ 998778780 - 25 < 998778720 + (998778780 - 998778720) / 25 * 25 <= 998778780
    /\ (last l = Some 998778780 <-> (998778780 - 998778720) mod 25 = 0).
Proof.
  apply (timelist_first_last 998778720 998778780 25);
    unfold Py.in_range, Py.datetime_min, Py.datetime_max; vm_compute; try done.
  all: split; discriminate.
Defined.

(** C3 as stated fails whenever the increment does not divide the window:
    Monday 08:00 to 09:00 in steps of 25 minutes gives 08:00, 08:25 and
    08:50, and 09:00 is not in the list. *)
Lemma timelist_last_counterexample :
  Py.datetime 1900 1 1 8 0 = Some 998778720
  /\ Py.datetime 1900 1 1 9 0 = Some 998778780
  /\ 998778720 < 998778780
  /\ 0 < 25
  /\ make_timelist 4 998778720 998778780 25
     = Ok [998778720; 998778745; 998778770]
  /\ last [998778720; 998778745; 998778770] <> Some 998778780.
Proof. repeat split; done. Qed.

(** C7. For every strictly positive increment (and every window), each pass
    of the loop keeps the time list strictly increasing and below the
    instant to append next; so the list is strictly increasing after any
    number of passes, however the loop ends, and a list that is returned is
    strictly increasing and free of duplicates.  For a validated window whose
    stepping stays in the range of [datetime] such a list is returned. *)
Theorem timelist_strictly_increasing start_time end_time increment :
  0 < increment ->
  (forall s, increasing_below s ->
     increasing_after (loop_step end_time increment s))
  /\ (forall fuel,
        StronglySorted Z.lt
          (timelist (state_of
             (while_loop fuel end_time increment (LoopState [] start_time)))))
  /\ (forall fuel l,
        make_timelist fuel start_time end_time increment = Ok l ->
        StronglySorted Z.lt l /\ NoDup l)
  /\ (Py.in_range start_time -> start_time < end_time ->
      start_time + count start_time end_time increment * increment <= Py.datetime_max ->
      exists l,
        make_timelist (S (Z.to_nat (count start_time end_time increment)))
          start_time end_time increment = Ok l
        /\ StronglySorted Z.lt l /\ NoDup l).
Proof.
  intros Hinc. split; [|split; [|split]].
  - intros s Hs. by apply loop_step_increasing.
  - intros fuel. apply increasing_after_sorted, while_loop_increasing; [done|].
    apply increasing_below_initial.
  - intros fuel l Hl. apply make_timelist_sorted in Hl; [|done].
    split; [done|]. by apply StronglySorted_lt_NoDup.
  - intros Hin Hwin Hlast. eexists. split.
    + apply make_timelist_positive; [done|lia|done..|lia].
    + pose proof (make_timelist_positive start_time end_time increment
        (S (Z.to_nat (count start_time end_time increment)))
        Hin ltac:(lia) Hinc Hlast ltac:(lia)) as Hl.
      apply make_timelist_sorted in Hl; [|done].
      split; [done|]. by apply StronglySorted_lt_NoDup.
Qed.

Lemma timelist_strictly_increasing_witness :
  0 < 30
  /\ (forall fuel,
        StronglySorted Z.lt
          (timelist (state_of
             (while_loop fuel 998778780 30 (LoopState [] 998778720)))))
  /\ (forall fuel l,
        make_timelist fuel 998778720 998778780 30 = Ok l ->
        StronglySorted Z.lt l /\ NoDup l).
Proof.
  split; [done|].
  split; apply (timelist_strictly_increasing 998778720 998778780 30); done.
Defined.

End TimeListClaims.

(** ** The claims about the checks and the script *)

Lemma days_Some (a : string) (d : Py.date) :
  days !! a = Some d ->
  (a, d) ∈ [("Monday", Py.Date 1900 1 1); ("Tuesday", Py.Date 1900 1 2);
            ("Wednesday", Py.Date 1900 1 3); ("Thursday", Py.Date 1900 1 4);
            ("Friday", Py.Date 1900 1 5); ("Saturday", Py.Date 1900 1 6);
            ("Sunday", Py.Date 1899 12 31)].
Proof.
  unfold days. intros Ha.
  repeat (apply lookup_insert_Some in Ha as [[<- <-]|[_ Ha]];
          [set_solver|]).
  apply lookup_singleton_Some in Ha as [<- <-]. set_solver.
Qed.

(** Two weekday names with one date are one name. *)
Lemma days_inj (a b : string) (d : Py.date) :
  days !! a = Some d -> days !! b = Some d -> a = b.
Proof.
  intros Ha%days_Some Hb%days_Some.
  repeat (apply elem_of_cons in Ha as [Ha|Ha]; [injection Ha as -> ->|]);
    try by apply elem_of_nil in Ha.
  all: repeat (apply elem_of_cons in Hb as [Hb|Hb];
               [by (injection Hb as ->) || discriminate Hb|]).
  all: by apply elem_of_nil in Hb.
Qed.

Section ScriptClaims.

Context `{PyLib} `{Engine}.

Implicit Types (p : params) (w : world) (e : exn).

(** An exception of the checks leaves the [try] block at once: the loop
    that builds the time list is not reached. *)
Lemma body_Raise fuel p w w' e :
  process_inputs p w = (w', Raise e) -> body fuel p w = (w', Raise e).
Proof. intros Hraise. unfold body. unfold bind at 1. by rewrite Hraise. Qed.

Lemma logged_last (cs : list call) (c : call) w w' :
  logged (cs ++ [c]) w w' -> last (log w') = Some c.
Proof.
  unfold logged. intros ->. destruct w; cbn. by rewrite app_assoc, last_snoc.
Qed.

(** Inputs that no run of the checks accepts are rejected with an error. *)
Lemma process_inputs_rejected p w :
  (forall w' start_time end_time,
     process_inputs p w <> (w', Ok (start_time, end_time))) ->
  exists w' e,
    process_inputs p w = (w', Raise e)
    /\ (e = CustomError \/ e = ValueError)
    /\ (e = CustomError -> exists msg, last (log w') = Some (AddError msg))
    /\ forall fuel, body fuel p w = (w', Raise e).
Proof.
  intros Hno. destruct (process_inputs p w) as [w' [[s e]|e|]] eqn:Hrun.
  - by destruct (Hno w' s e).
  - exists w', e. split; [done|].
    pose proof (process_inputs_Raise _ _ _ _ Hrun) as Hr.
    split; [destruct Hr as [[-> _]|[-> _]]; by (left + right)|]. split.
    + intros ->. destruct Hr as [[_ [msg [Hl|Hl]]]|[? _]]; [..|done]; exists msg.
      * by apply (logged_last [] _ w).
      * by apply (logged_last [CheckOutExtension] _ w).
    + intros fuel. by apply body_Raise.
  - by destruct (process_inputs_no_loop p w w').
Qed.

(** C4. When exactly one of the start day and the end day is a generic
    weekday name, the checks end with an error ([CustomError] after an
    [AddError], or the [ValueError] of a start day or time that does not
    parse) and the [try] block is left before the time list is built. *)
Theorem mismatched_kinds_rejected p w :
  generic (start_day_input p) <> generic (end_day_input p) ->
  exists w' e,
    process_inputs p w = (w', Raise e)
    /\ (e = CustomError \/ e = ValueError)
    /\ (e = CustomError -> exists msg, last (log w') = Some (AddError msg))
    /\ forall fuel, body fuel p w = (w', Raise e).
Proof.
  intros Hkinds. apply process_inputs_rejected. intros w' s e Hok.
  by apply process_inputs_Ok in Hok as (_ & _ & _ & _ & Heq & _).
Qed.

(** C5. When the start day and the end day are two different generic
    weekday names, the checks end with an error and the [try] block is left
    before the time list is built. *)
Theorem different_weekdays_rejected p w :
  generic (start_day_input p) = true ->
  generic (end_day_input p) = true ->
  start_day_input p <> end_day_input p ->
  exists w' e,
    process_inputs p w = (w', Raise e)
    /\ (e = CustomError \/ e = ValueError)
    /\ (e = CustomError -> exists msg, last (log w') = Some (AddError msg))
    /\ forall fuel, body fuel p w = (w', Raise e).
Proof.
  intros Hstart Hend Hdiff. apply process_inputs_rejected. intros w' s e Hok.
  apply process_inputs_Ok in Hok as (_ & _ & _ & _ & _ & Hsame).
  specialize (Hsame Hstart). unfold generic in Hstart.
  apply bool_decide_eq_true in Hstart as [d Hd].
  apply Hdiff. apply (days_inj _ _ d); [done|by rewrite <- Hsame].
Qed.

(** Lines 88-93 on their own. *)
Lemma check_window_same (start_time : Py.instant) w :
  check_window start_time start_time w
  = (set_log (log w ++ [AddError "Start and end date and time are the same."]) w,
     Raise CustomError).
Proof. unfold check_window. rewrite Z.eqb_refl. by unfold_monad. Qed.

Lemma check_window_earlier (start_time end_time : Py.instant) w :
  end_time < start_time ->
  check_window start_time end_time w
  = (set_log (log w ++ [AddError "End time is earlier than start time."]) w,
     Raise CustomError).
Proof.
  intros Hlt. unfold check_window.
  destruct (Z.eqb_spec start_time end_time) as [->|_]; [lia|].
  apply Z.ltb_lt in Hlt. rewrite Hlt. by unfold_monad.
Qed.

(** C6. When the composed start instant equals the composed end instant, and
    when the composed end instant is before the composed start instant, the
    checks end with [CustomError] right after an [AddError], and the [try]
    block is left before the time list is built; the check of the window
    itself (lines 88-93) reports each of the two cases. *)
Theorem empty_or_reversed_window_rejected p w (start_time end_time : Py.instant) :
  instant_of (start_day_input p) (start_time_input p) = Some start_time ->
  instant_of (end_day_input p) (end_time_input p) = Some end_time ->
  start_time = end_time \/ end_time < start_time ->
  (exists w' msg,
     process_inputs p w = (w', Raise CustomError)
     /\ last (log w') = Some (AddError msg)
     /\ forall fuel, body fuel p w = (w', Raise CustomError))
  /\ exists msg,
       check_window start_time end_time w
       = (set_log (log w ++ [AddError msg]) w, Raise CustomError).
Proof.
  intros Hstart Hend Hwindow. split.
  - destruct (process_inputs_rejected p w) as (w' & e & Hrun & _ & Hmsg & Hbody).
    { intros w' s e Hok. apply process_inputs_Ok in Hok as (_ & Hs & He & Hlt & _).
      simplify_eq. lia. }
    pose proof (process_inputs_Raise _ _ _ _ Hrun) as [[-> _]|(_ & _ & Hnone)].
    + destruct (Hmsg eq_refl) as [msg Hlast]. by exists w', msg.
    + destruct Hnone; simplify_eq.
  - destruct Hwindow as [->|Hlt]; eexists.
    + apply check_window_same.
    + by apply check_window_earlier.
Qed.

(** C8. When a check fails, the script ends after the calls [cs], which
    change nothing but the log: none of them is a solve, a copy or an append,
    so the solver is not invoked and the output feature class is as it was.
    A [CustomError] follows an [AddError] and ends the script quietly; the
    [ValueError] of a parse is raised again to the caller. *)
Theorem validation_failure_is_terminal fuel p w e :
  (process_inputs p w).2 = Raise e ->
  exists cs,
    script fuel p w
    = (set_log (log w ++ cs) w,
       match e with CustomError => Ok tt | _ => Raise e end)
    /\ output (script fuel p w).1 = output w
    /\ (Solve ∉ cs) /\ (CopyFeatures ∉ cs) /\ (Append ∉ cs)
    /\ (e = CustomError -> exists msg, AddError msg ∈ cs)
    /\ (e = CustomError \/ e = ValueError).
Proof.
  intros Hraise. destruct (script_Raise fuel p w e Hraise) as (cs & Hrun & Hcs).
  eexists. split; [exact Hrun|]. rewrite Hrun. split; [by destruct w|].
  destruct Hcs as [[-> [msg [->| ->]]]|[-> ->]]; cbn.
  all: repeat split; try (by left); try (by right); try done.
  all: try (intros Hin; by not_in_list Hin).
  all: intros _; exists msg; repeat ((by left) || right).
Qed.

(** C2, amended. An increment of zero is neither rejected nor guarded: for
    every validated window the checks pass without an [AddError], and the
    loop that builds the time list is still running after any number of
    passes; the script never gets to its [finally]. *)
Theorem zero_increment_loops_forever p w (start_time end_time : Py.instant) :
  increment_input p = 0 ->
  (process_inputs p w).2 = Ok (start_time, end_time) ->
  (process_inputs p w).1 = set_log (log w ++ [CheckOutExtension]) w
  /\ forall fuel,
       make_timelist fuel start_time end_time (increment_input p) = OutOfFuel
       /\ script fuel p w
          = (set_log (log w ++ [CheckOutExtension; CheckOutExtension]) w, OutOfFuel).
Proof.
  intros Hzero Hok.
  destruct (process_inputs p w) as [w' r] eqn:Hrun. cbn in Hok. subst r.
  pose proof (process_inputs_Ok _ _ _ _ _ Hrun) as (Hlog & Hs & _ & Hlt & _).
  split; [done|]. intros fuel.
  assert (make_timelist fuel start_time end_time (increment_input p) = OutOfFuel)
    as Hloop.
  { rewrite Hzero. apply make_timelist_zero; [by eapply instant_of_in_range|lia]. }
  split; [done|]. eapply script_OutOfFuel; [|done]. by rewrite Hrun.
Qed.

(** C10, amended. For every strictly negative increment and validated
    window, no check rejects the increment and the loop never returns a time
    list: its test holds at every pass.  It does not run for ever either:
    after [floor((start - datetime.min) / -increment) + 1] passes at most,
    [t += increment] leaves the range of [datetime] and raises
    [OverflowError], which the script raises again after its [finally]. *)
Theorem negative_increment_overflows p w (start_time end_time : Py.instant) :
  increment_input p < 0 ->
  (process_inputs p w).2 = Ok (start_time, end_time) ->
  (process_inputs p w).1 = set_log (log w ++ [CheckOutExtension]) w
  /\ (forall fuel l,
        make_timelist fuel start_time end_time (increment_input p) <> Ok l)
  /\ forall fuel,
       (Z.to_nat ((start_time - Py.datetime_min) / - increment_input p) < fuel)%nat ->
       make_timelist fuel start_time end_time (increment_input p)
       = Raise OverflowError
       /\ script fuel p w
          = (set_log (log w ++ [CheckOutExtension; CheckOutExtension;
                                CheckInExtension]) w,
             Raise OverflowError).
Proof.
  intros Hneg Hok.
  destruct (process_inputs p w) as [w' r] eqn:Hrun. cbn in Hok. subst r.
  pose proof (process_inputs_Ok _ _ _ _ _ Hrun) as (Hlog & Hs & _ & Hlt & _).
  apply instant_of_in_range in Hs.
  split; [done|]. split.
  - intros fuel l. rewrite make_timelist_negative by (done || lia).
    case_match; [by case_decide|done].
  - intros fuel Hfuel.
    assert (make_timelist fuel start_time end_time (increment_input p)
            = Raise OverflowError) as Hloop.
    { rewrite make_timelist_negative by (done || lia).
      case_match; [|done]. case_decide; [lia|done]. }
    split; [done|]. eapply script_Overflow; [|done]. by rewrite Hrun.
Qed.

End ScriptClaims.

(** ** The claims about the solve loop *)

Section SolveLoopClaims.

Context `{PyLib} `{Engine}.

Implicit Types (p : params) (w : world) (e : exn) (timelist : list Py.instant).

Lemma solved_at_loop_calls (exists_ : bool) timelist :
  omap solved_at (loop_calls exists_ timelist) = timelist.
Proof.
  revert exists_. induction timelist as [|t0 l IH]; intros b; [done|].
  cbn [loop_calls]. rewrite omap_app, IH. by destruct b.
Qed.

Lemma solves_loop_calls (exists_ : bool) timelist :
  length (filter (fun c => c = Solve) (loop_calls exists_ timelist))
  = length timelist.
Proof.
  revert exists_. induction timelist as [|t0 l IH]; intros b; [done|].
  cbn [loop_calls]. rewrite filter_app, length_app, IH. by destruct b.
Qed.

Lemma loop_calls_existing timelist : CopyFeatures ∉ loop_calls true timelist.
Proof.
  induction timelist as [|t0 l IH]; [by apply not_elem_of_nil|].
  cbn [loop_calls]. rewrite elem_of_app. intros [Hin|Hin]; [|done].
  unfold solve_calls in Hin. by not_in_list Hin.
Qed.

(** The first pass creates the output when it does not exist yet. *)
Lemma loop_calls_fresh (t0 : Py.instant) timelist :
  loop_calls false (t0 :: timelist)
  = solve_calls false t0 ++ loop_calls true timelist.
Proof. done. Qed.

(** C9 on a host where the output feature class does not exist yet: a valid
    run makes one solve per instant of the time list, in its order; the
    first creates the output, the later ones append to it, and it ends up
    holding the polygons of every solve, each tagged with the instant of its
    solve. *)
Theorem fresh_output_created_then_appended fuel p w
    (start_time end_time : Py.instant) timelist :
  (process_inputs p w).2 = Ok (start_time, end_time) ->
  make_timelist fuel start_time end_time (increment_input p) = Ok timelist ->
  output w = None ->
  exists w' cs,
    script fuel p w = (w', Ok tt)
    /\ log w'
       = log w ++ [CheckOutExtension; CheckOutExtension] ++ cs
         ++ [AddMessage "Solving Service Area at time..."]
         ++ loop_calls false timelist ++ [CheckInExtension]
    /\ Forall field_call cs
    /\ omap solved_at (loop_calls false timelist) = timelist
    /\ length (filter (fun c => c = Solve) (loop_calls false timelist))
       = length timelist
    /\ (CopyFeatures ∉ loop_calls true (tail timelist))
    /\ output w'
       = match timelist with [] => None | _ => Some (timelist ≫= tagged) end.
Proof.
  intros Hok Hloop Hfresh.
  destruct (script_Ok fuel p w _ _ _ Hok Hloop) as (w' & cs & Hrun & Hout & Hlog & Hcs).
  exists w', cs. rewrite Hfresh in Hout, Hlog.
  split; [done|]. split; [done|]. split; [done|].
  split; [apply solved_at_loop_calls|].
  split; [apply solves_loop_calls|].
  split; [apply loop_calls_existing|].
  rewrite Hout. by destruct timelist.
Qed.

(** The same run when the output feature class is there before it: no pass
    creates it; every solve, the first one too, appends to what it held. *)
Lemma existing_output_never_created fuel p w
    (start_time end_time : Py.instant) timelist (old : list polygon) :
  (process_inputs p w).2 = Ok (start_time, end_time) ->
  make_timelist fuel start_time end_time (increment_input p) = Ok timelist ->
  output w = Some old ->
  exists w' cs,
    script fuel p w = (w', Ok tt)
    /\ log w' = log w ++ cs
    /\ (CopyFeatures ∉ cs)
    /\ output w' = Some (old ++ (timelist ≫= tagged)).
Proof.
  intros Hok Hloop Hold.
  destruct (script_Ok fuel p w _ _ _ Hok Hloop) as (w' & cs & Hrun & Hout & Hlog & Hcs).
  eexists w', _. split; [done|]. split; [exact Hlog|].
  rewrite Hold in *. split.
  - rewrite bool_decide_true by done. intros Hin.
    apply elem_of_app in Hin as [Hin|Hin]; [by not_in_list Hin|].
    apply elem_of_app in Hin as [Hin|Hin].
    { eapply Forall_forall in Hcs; [|done]. done. }
    apply elem_of_app in Hin as [Hin|Hin]; [by not_in_list Hin|].
    apply elem_of_app in Hin as [Hin|Hin]; [|by not_in_list Hin].
    by apply loop_calls_existing in Hin.
  - rewrite Hout. destruct timelist; cbn; [by rewrite app_nil_r|done].
Qed.

End SolveLoopClaims.

(** ** More about the time list *)

Section TimeListProperties.

Implicit Types (s : loop_state) (n k : nat) (start_time end_time increment : Z).

(** A loop that is left was left after some [k] full passes: it appended the
    [k] instants from [t] on, all of them up to the end, and stands at the
    first one past the end. *)
Lemma while_loop_Break n end_time increment s s' :
  while_loop n end_time increment s = Break s' ->
  exists k,
    timelist s' = timelist s ++ ticks (t s) increment k
    /\ t s' = t s + Z.of_nat k * increment
    /\ (forall i : nat, (i < k)%nat -> t s + Z.of_nat i * increment <= end_time)
    /\ end_time < t s'.
Proof.
  revert s. induction n as [|n IH]; intros s; [done|].
  cbn [while_loop]. unfold loop_step.
  destruct (t s <=? end_time) eqn:Hle.
  - destruct (Py.add (t s) increment) as [t'|] eqn:Hadd; [|done].
    apply add_Some in Hadd as [-> _]. intros Hrun.
    apply IH in Hrun as (k & Hl & Ht & Hin & Hout). cbn [timelist t] in *.
    exists (S k). rewrite ticks_cons, Hl, Ht, <- app_assoc.
    split; [done|]. split; [lia|]. split; [|lia].
    intros [|i] Hi; [apply Z.leb_le in Hle; lia|].
    specialize (Hin i ltac:(lia)). lia.
  - intros [= <-]. exists 0%nat. cbn. rewrite app_nil_r.
    apply Z.leb_gt in Hle. repeat split; [lia| |lia]. lia.
Qed.

(** Lines 98-102: whatever the increment and the fuel, a time list that is
    returned is the arithmetic progression from the start instant in steps
    of the increment, holds no instant after the end instant, and is
    complete: the next instant of the progression is after the end. *)
Theorem timelist_is_progression fuel start_time end_time increment
    (l : list Py.instant) :
  make_timelist fuel start_time end_time increment = Ok l ->
  (forall i : nat, (i < length l)%nat ->
     l !! i = Some (start_time + Z.of_nat i * increment))
  /\ (forall x, x ∈ l -> x <= end_time)
  /\ end_time < start_time + Z.of_nat (length l) * increment.
Proof.
  unfold make_timelist.
  destruct (Py.timedelta increment) as [d|] eqn:Hd; [|done].
  apply timedelta_Some in Hd as ->.
  destruct (while_loop _ _ _ _) as [s|s|s] eqn:Hrun; [done| |done].
  intros [= <-].
  apply while_loop_Break in Hrun as (k & Hl & Ht & Hin & Hout).
  cbn [timelist t] in *. rewrite Hl. cbn [app]. rewrite length_ticks.
  split; [|split].
  - intros i Hi. by apply lookup_ticks.
  - intros x (i & Hx)%list_elem_of_lookup.
    pose proof (lookup_lt_Some _ _ _ Hx) as Hi. rewrite length_ticks in Hi.
    rewrite lookup_ticks in Hx by done. injection Hx as <-. by apply Hin.
  - lia.
Qed.

Lemma timelist_is_progression_witness :
  (forall i : nat,
     (i < length [998778720%Z; 998778745%Z; 998778770%Z])%nat ->
     [998778720; 998778745; 998778770] !! i = Some (998778720 + Z.of_nat i * 25))
  /\ (forall x, x ∈ [998778720; 998778745; 998778770] -> x <= 998778780)
  /\ 998778780
     < 998778720 + Z.of_nat (length [998778720; 998778745; 998778770]) * 25.
Proof.
  apply (timelist_is_progression 4 998778720 998778780 25). by vm_compute.
Defined.

(** Lines 98-102: an increment that is longer than the window leaves the
    start instant alone in the time list; the end instant is not solved. *)
Theorem increment_beyond_window start_time end_time increment fuel :
  Py.in_range start_time -> start_time < end_time ->
  end_time - start_time < increment ->
  start_time + increment <= Py.datetime_max ->
  (1 < fuel)%nat ->
  make_timelist fuel start_time end_time increment = Ok [start_time].
Proof.
  intros Hin Hwin Hinc Hlast Hfuel.
  assert (count start_time end_time increment = 1) as Hcount.
  { unfold count. rewrite Z.div_small by lia. done. }
  rewrite make_timelist_positive; rewrite ?Hcount; try done; try lia.
  change (Z.to_nat 1) with 1%nat. unfold ticks. cbn. do 2 f_equal. lia.
Qed.

Lemma increment_beyond_window_witness :
  make_timelist 2 998778720 998778780 90 = Ok [998778720].
Proof.
  apply (increment_beyond_window 998778720 998778780 90 2);
    unfold Py.in_range, Py.datetime_min, Py.datetime_max; lia.
Defined.

(** A sufficient condition for the loop to return that reads on the
    inputs: the end instant plus one increment is still a [datetime]. *)
Lemma count_last_le start_time end_time increment :
  0 < increment -> start_time <= end_time ->
  start_time + count start_time end_time increment * increment
  <= end_time + increment.
Proof.
  intros Hinc Hwin. unfold count.
  pose proof (div_bounds (end_time - start_time) increment Hinc). nia.
Qed.

End TimeListProperties.

(** ** More about the checks *)

Section InputProperties.

Context `{PyLib} `{Engine}.

Implicit Types (p : params) (w : world) (e : exn).

(** What the two checks of lines 11-27 read of the host. *)
Lemma process_inputs_Ok_host p w w' (start_time end_time : Py.instant) :
  process_inputs p w = (w', Ok (start_time, end_time)) ->
  network_license w = true
  /\ dataType w = "NALayer"
  /\ solverName w = "Service Area Solver".
Proof.
  unfold_inputs. destruct w. unfold_monad. cases.
  all: intros _;
    repeat match goal with
      | Hor : (_ || _) = false |- _ => apply orb_false_elim in Hor as [? ?]
      end; decided; done.
Qed.

(** The checks accept a configuration exactly when the host is licensed, the
    layer is a Service Area layer, both instants compose, the two days are of
    one kind (and one weekday name, if generic) and the start is strictly
    before the end; nothing but the licence check-out is logged then. *)
Theorem accepted_iff p w (start_time end_time : Py.instant) :
  process_inputs p w
  = (set_log (log w ++ [CheckOutExtension]) w, Ok (start_time, end_time))
  <-> network_license w = true
      /\ dataType w = "NALayer"
      /\ solverName w = "Service Area Solver"
      /\ instant_of (start_day_input p) (start_time_input p) = Some start_time
      /\ instant_of (end_day_input p) (end_time_input p) = Some end_time
      /\ generic (start_day_input p) = generic (end_day_input p)
      /\ (generic (start_day_input p) = true ->
          start_day_input p = end_day_input p)
      /\ start_time < end_time.
Proof.
  split.
  - intros Hrun.
    pose proof (process_inputs_Ok_host _ _ _ _ _ Hrun) as (? & ? & ?).
    pose proof (process_inputs_Ok _ _ _ _ _ Hrun) as (_ & ? & ? & ? & ? & Hsame).
    repeat split; try done.
    intros Hgen. specialize (Hsame Hgen). unfold generic in Hgen.
    apply bool_decide_eq_true in Hgen as [d Hd].
    apply (days_inj _ _ d); [done|by rewrite <- Hsame].
  - intros (Hlic & Hdt & Hsn & Hs & He & Hkind & Hsame & Hlt).
    unfold_inputs. destruct w; cbn in Hlic, Hdt, Hsn; subst.
    unfold_monad.
    change (bool_decide ("NALayer" <> "NALayer")) with false.
    change (bool_decide ("Service Area Solver" <> "Service Area Solver")) with false.
    cbn.
    destruct (days !! start_day_input p) as [d1|] eqn:Hd1;
      destruct (days !! end_day_input p) as [d2|] eqn:Hd2; cbn in *;
      try discriminate Hkind.
    + rewrite <- (Hsame eq_refl), Hd1 in Hd2. simplify_eq.
      cases; decided; try lia; congruence.
    + cases; decided; lia.
Qed.

(** From the checks to the script: what the checks log before they raise
    is what the script logs between its first check-out and its check-in. *)
Lemma script_of_checks fuel p w (cs : list call) e :
  process_inputs p w = (set_log (log w ++ cs) w, Raise e) ->
  script fuel p w
  = (set_log (log w ++ [CheckOutExtension] ++ cs ++ [CheckInExtension]) w,
     match e with CustomError => Ok tt | _ => Raise e end).
Proof.
  intros Hrun. destruct (process_inputs_frame p w) as [cs0 Hcs0].
  pose proof (Hcs0 (log w)) as Hw. rewrite set_log_log, Hrun in Hw.
  injection Hw as Hlog. apply app_inv_head in Hlog. subst cs0.
  unfold script, body. unfold bind at 1 2. unfold arcpy at 1, modify at 1.
  rewrite Hcs0, Hrun. cbn [snd].
  destruct w; destruct e; unfold_monad; by rewrite <- !app_assoc.
Qed.

(** Lines 11-16. On a host without a Network Analyst licence the script
    reports it and ends, whatever its parameters are: none of them is
    parsed. *)
Theorem unlicensed_host_stops fuel p w :
  network_license w = false ->
  script fuel p w
  = (set_log (log w ++ [CheckOutExtension;
       AddError "You must have a Network Analyst license to use this tool.";
       CheckInExtension]) w,
     Ok tt).
Proof.
  intros Hlic.
  apply (script_of_checks fuel p w
    [AddError "You must have a Network Analyst license to use this tool."]
    CustomError).
  unfold_inputs. destruct w; cbn in Hlic; subst. by unfold_monad.
Qed.

(** Lines 23-27. On a licensed host whose layer is not a Service Area layer
    the script reports it and ends, whatever its other parameters are. *)
Theorem wrong_layer_stops fuel p w :
  network_license w = true ->
  dataType w <> "NALayer" \/ solverName w <> "Service Area Solver" ->
  script fuel p w
  = (set_log (log w ++ [CheckOutExtension; CheckOutExtension;
       AddError "Input layer must be a Service Area layer.";
       CheckInExtension]) w,
     Ok tt).
Proof.
  intros Hlic Hlayer.
  apply (script_of_checks fuel p w
    [CheckOutExtension; AddError "Input layer must be a Service Area layer."]
    CustomError).
  unfold_inputs. destruct w as [lic dt sn fields tod rows out calls].
  cbn in Hlic, Hlayer; subst. unfold_monad.
  assert (bool_decide (dt <> "NALayer")
          || bool_decide (sn <> "Service Area Solver") = true) as ->.
  { destruct Hlayer as [Hl|Hl].
    - by rewrite (bool_decide_true _ Hl).
    - rewrite (bool_decide_true (sn <> _) Hl). apply orb_true_r. }
  cbn. by rewrite <- app_assoc.
Qed.


(** Lines 57-59 and 84-86. A day or a time that does not parse is not
    reported through [AddError]: on a ready host the [ValueError] of the
    start leaves the script whatever the end is, and that of the end leaves
    it when the days are of one kind (and one weekday, if generic); the
    licence is checked in first. *)
Theorem unparsable_input_raises fuel p w :
  ready w ->
  instant_of (start_day_input p) (start_time_input p) = None
  \/ (is_Some (instant_of (start_day_input p) (start_time_input p))
      /\ generic (start_day_input p) = generic (end_day_input p)
      /\ (generic (start_day_input p) = true ->
          start_day_input p = end_day_input p)
      /\ instant_of (end_day_input p) (end_time_input p) = None) ->
  script fuel p w
  = (set_log (log w ++ [CheckOutExtension; CheckOutExtension;
                        CheckInExtension]) w,
     Raise ValueError).
Proof.
  intros Hready Hbad.
  apply (script_of_checks fuel p w [CheckOutExtension] ValueError).
  unfold_inputs. ready_host w Hready.
  destruct Hbad as [Hs|([s Hs] & Hkind & Hsame & He)].
  - destruct (days !! start_day_input p) as [d1|]; cbn in *; cases.
  - destruct (days !! start_day_input p) as [d1|] eqn:Hd1;
      destruct (days !! end_day_input p) as [d2|] eqn:Hd2; cbn in *;
      try discriminate Hkind.
    + rewrite <- (Hsame eq_refl), Hd1 in Hd2. simplify_eq.
      cases; decided; congruence.
    + cases.
Qed.

(** Lines 63-68 and 79-83. On a ready host whose start instant composes,
    days of two kinds are reported by the message of the kind the start is
    of; the end day and the end time are not parsed before, so that a
    generic start with any end that is no weekday name, even one that is no
    date, is this error and no [ValueError]. *)
Theorem mismatched_kinds_message fuel p w :
  ready w ->
  is_Some (instant_of (start_day_input p) (start_time_input p)) ->
  generic (start_day_input p) <> generic (end_day_input p) ->
  script fuel p w
  = (set_log (log w ++ [CheckOutExtension; CheckOutExtension;
       AddError (if generic (start_day_input p)
                 then "Your Start Day is a generic weekday, but your End Day is a specific date. Please use either a specific date or a generic weekday for both Start Date and End Date."
                 else "Your Start Day is a specific date, but your End Day is a generic weekday. Please use either a specific date or a generic weekday for both Start Date and End Date.");
       CheckInExtension]) w,
     Ok tt).
Proof.
  intros Hready [s Hs] Hkind.
  apply (script_of_checks fuel p w [CheckOutExtension; AddError _] CustomError).
  unfold_inputs. ready_host w Hready.
  destruct (days !! start_day_input p) as [d1|] eqn:Hd1;
    destruct (days !! end_day_input p) as [d2|] eqn:Hd2; cbn in *;
    try done; cases; by rewrite <- app_assoc.
Qed.

(** Lines 69-77. On a ready host whose start instant composes, two
    different weekday names are reported as such, whatever the end time is. *)
Theorem different_weekdays_message fuel p w :
  ready w ->
  is_Some (instant_of (start_day_input p) (start_time_input p)) ->
  generic (start_day_input p) = true ->
  generic (end_day_input p) = true ->
  start_day_input p <> end_day_input p ->
  script fuel p w
  = (set_log (log w ++ [CheckOutExtension; CheckOutExtension;
       AddError "If using a generic weekday, the Start Day and End Day must be the same.";
       CheckInExtension]) w,
     Ok tt).
Proof.
  intros Hready [s Hs] Hstart Hend Hdiff.
  apply (script_of_checks fuel p w [CheckOutExtension; AddError _] CustomError).
  unfold_inputs. ready_host w Hready.
  destruct (days !! start_day_input p) as [d1|] eqn:Hd1;
    destruct (days !! end_day_input p) as [d2|] eqn:Hd2; cbn in *; try done.
  destruct (decide (d1 = d2)) as [->|Hne];
    [by destruct Hdiff; apply (days_inj _ _ d2)|].
  cases; decided; try done; by rewrite <- app_assoc.
Qed.

(** Lines 88-93. On a ready host, when both instants compose and the days
    are of one kind (and one weekday, if generic), equal instants and an end
    before the start are each reported by their own message. *)
Theorem window_messages fuel p w (start_time end_time : Py.instant) :
  ready w ->
  instant_of (start_day_input p) (start_time_input p) = Some start_time ->
  instant_of (end_day_input p) (end_time_input p) = Some end_time ->
  generic (start_day_input p) = generic (end_day_input p) ->
  (generic (start_day_input p) = true -> start_day_input p = end_day_input p) ->
  end_time <= start_time ->
  script fuel p w
  = (set_log (log w ++ [CheckOutExtension; CheckOutExtension;
       AddError (if start_time =? end_time
                 then "Start and end date and time are the same."
                 else "End time is earlier than start time.");
       CheckInExtension]) w,
     Ok tt).
Proof.
  intros Hready Hs He Hkind Hsame Hle.
  apply (script_of_checks fuel p w [CheckOutExtension; AddError _] CustomError).
  unfold_inputs. ready_host w Hready.
  destruct (days !! start_day_input p) as [d1|] eqn:Hd1;
    destruct (days !! end_day_input p) as [d2|] eqn:Hd2; cbn in *;
    try discriminate Hkind.
  - rewrite <- (Hsame eq_refl), Hd1 in Hd2. simplify_eq.
    cases; decided; try lia; try congruence; by rewrite <- app_assoc.
  - cases; decided; try lia; by rewrite <- app_assoc.
Qed.

End InputProperties.

(** ** The claims at concrete inputs *)

Import Sample.

Lemma mismatched_kinds_rejected_witness :
  exists w' e,
    process_inputs mixed fresh = (w', Raise e)
    /\ (e = CustomError \/ e = ValueError)
    /\ (e = CustomError -> exists msg, last (log w') = Some (AddError msg))
    /\ forall fuel, body fuel mixed fresh = (w', Raise e).
Proof. apply (mismatched_kinds_rejected mixed fresh). by vm_compute. Defined.

Lemma different_weekdays_rejected_witness :
  exists w' e,
    process_inputs two_weekdays fresh = (w', Raise e)
    /\ (e = CustomError \/ e = ValueError)
    /\ (e = CustomError -> exists msg, last (log w') = Some (AddError msg))
    /\ forall fuel, body fuel two_weekdays fresh = (w', Raise e).
Proof.
  apply (different_weekdays_rejected two_weekdays fresh); by vm_compute.
Defined.

Lemma empty_or_reversed_window_rejected_witness :
  (exists w' msg,
     process_inputs reversed fresh = (w', Raise CustomError)
     /\ last (log w') = Some (AddError msg)
     /\ forall fuel, body fuel reversed fresh = (w', Raise CustomError))
  /\ exists msg,
       check_window 998778780 998778720 fresh
       = (set_log (log fresh ++ [AddError msg]) fresh, Raise CustomError).
Proof.
  apply (empty_or_reversed_window_rejected reversed fresh 998778780 998778720);
    [by vm_compute..|right; by vm_compute].
Defined.

Lemma validation_failure_is_terminal_witness :
  exists cs,
    script 4 mixed fresh = (set_log (log fresh ++ cs) fresh, Ok tt)
    /\ output (script 4 mixed fresh).1 = output fresh
    /\ (Solve ∉ cs) /\ (CopyFeatures ∉ cs) /\ (Append ∉ cs)
    /\ (CustomError = CustomError -> exists msg, AddError msg ∈ cs)
    /\ (CustomError = CustomError \/ CustomError = ValueError).
Proof.
  apply (validation_failure_is_terminal 4 mixed fresh CustomError). by vm_compute.
Defined.

Lemma zero_increment_loops_forever_witness :
  (process_inputs (monday 0) fresh).1 = set_log (log fresh ++ [CheckOutExtension]) fresh
  /\ forall fuel,
       make_timelist fuel 998778720 998778780 (increment_input (monday 0)) = OutOfFuel
       /\ script fuel (monday 0) fresh
          = (set_log (log fresh ++ [CheckOutExtension; CheckOutExtension]) fresh,
             OutOfFuel).
Proof.
  apply (zero_increment_loops_forever (monday 0) fresh 998778720 998778780);
    by vm_compute.
Defined.

(** C2 as stated fails on the example of the specification with increment
    zero: every check passes, no error is reported, and the script is still
    in its [while] loop whatever the fuel. *)
Lemma zero_increment_counterexample :
  increment_input (monday 0) = 0
  /\ process_inputs (monday 0) fresh
     = (set_log [CheckOutExtension] fresh, Ok (998778720, 998778780))
  /\ (forall fuel, make_timelist fuel 998778720 998778780 0 = OutOfFuel)
  /\ (forall fuel,
        script fuel (monday 0) fresh
        = (set_log [CheckOutExtension; CheckOutExtension] fresh, OutOfFuel)).
Proof.
  split; [done|]. split; [by vm_compute|].
  assert (forall fuel, make_timelist fuel 998778720 998778780 0 = OutOfFuel) as Hloop.
  { intros fuel. apply make_timelist_zero; [|lia].
    unfold Py.in_range, Py.datetime_min, Py.datetime_max. lia. }
  split; [done|]. intros fuel.
  by apply (script_OutOfFuel fuel (monday 0) fresh 998778720 998778780).
Qed.

Lemma negative_increment_overflows_witness :
  (process_inputs (monday (-30)) fresh).1
  = set_log (log fresh ++ [CheckOutExtension]) fresh
  /\ (forall fuel l,
        make_timelist fuel 998778720 998778780 (increment_input (monday (-30)))
        <> Ok l)
  /\ forall fuel,
       (Z.to_nat ((998778720 - Py.datetime_min) / - increment_input (monday (-30)))
        < fuel)%nat ->
       make_timelist fuel 998778720 998778780 (increment_input (monday (-30)))
       = Raise OverflowError
       /\ script fuel (monday (-30)) fresh
          = (set_log (log fresh ++ [CheckOutExtension; CheckOutExtension;
                                    CheckInExtension]) fresh,
             Raise OverflowError).
Proof.
  apply (negative_increment_overflows (monday (-30)) fresh 998778720 998778780);
    by vm_compute.
Defined.

(** C10 as stated fails: the loop with a negative increment ends, with an
    exception.  In steps of minus a thousand million minutes (some 1901
    years) from Monday 08:00 the first pass already leaves the range of
    [datetime]; in steps of minus 30 minutes the pass of number 33292577
    does. *)
Lemma negative_increment_counterexample :
  process_inputs (monday (-1000000000)) fresh
  = (set_log [CheckOutExtension] fresh, Ok (998778720, 998778780))
  /\ make_timelist 1 998778720 998778780 (-1000000000) = Raise OverflowError
  /\ script 1 (monday (-1000000000)) fresh
     = (set_log [CheckOutExtension; CheckOutExtension; CheckInExtension] fresh,
        Raise OverflowError)
  /\ make_timelist (Z.to_nat 33292577) 998778720 998778780 (-30)
     = Raise OverflowError.
Proof.
  split; [by vm_compute|]. split; [by vm_compute|]. split; [by vm_compute|].
  rewrite make_timelist_negative.
  - rewrite timedelta_small by (unfold Py.datetime_max; lia).
    case_decide as Hfuel; [|done].
    change ((998778720 - Py.datetime_min) / - -30) with 33292576 in Hfuel. lia.
  - unfold Py.in_range, Py.datetime_min, Py.datetime_max. lia.
  - lia.
  - lia.
Qed.


(** C9 fails on a configuration the script allows (it sets
    [overwriteOutput]): when the output feature class is there before the
    run, the solve of the first instant appends to it; nothing creates it,
    and the polygon of the earlier run stays in the result. *)
Theorem existing_output_is_appended_to :
  process_inputs (monday 30) with_output
  = (set_log [CheckOutExtension] with_output, Ok (998778720, 998778780))
  /\ make_timelist 4 998778720 998778780 30
     = Ok [998778720; 998778750; 998778780]
  /\ (script 4 (monday 30) with_output).2 = Ok tt
  /\ omap solved_at (log (script 4 (monday 30) with_output).1)
     = [998778720; 998778750; 998778780]
  /\ (CopyFeatures ∉ log (script 4 (monday 30) with_output).1)
  /\ output (script 4 (monday 30) with_output).1
     = Some (stale :: tagged 998778720 ++ tagged 998778750 ++ tagged 998778780).
Proof.
  repeat split; try by vm_compute.
  intros Hin.
  assert (log (script 4 (monday 30) with_output).1
          = [CheckOutExtension; CheckOutExtension]
            ++ [AddFieldToAnalysisLayer time_field;
                AddMessage "Solving Service Area at time..."]
            ++ loop_calls true [998778720; 998778750; 998778780]
            ++ [CheckInExtension]) as Hlog by (by vm_compute).
  rewrite Hlog in Hin.
  apply elem_of_app in Hin as [Hin|Hin]; [by not_in_list Hin|].
  apply elem_of_app in Hin as [Hin|Hin]; [by not_in_list Hin|].
  apply elem_of_app in Hin as [Hin|Hin]; [|by not_in_list Hin].
  by apply loop_calls_existing in Hin.
Qed.

Lemma fresh_output_created_then_appended_witness :
  exists w' cs,
    script 4 (monday 30) fresh = (w', Ok tt)
    /\ log w'
       = log fresh ++ [CheckOutExtension; CheckOutExtension] ++ cs
         ++ [AddMessage "Solving Service Area at time..."]
         ++ loop_calls false [998778720; 998778750; 998778780]
         ++ [CheckInExtension]
    /\ Forall field_call cs
    /\ omap solved_at (loop_calls false [998778720; 998778750; 998778780])
       = [998778720; 998778750; 998778780]
    /\ length (filter (fun c => c = Solve)
                 (loop_calls false [998778720; 998778750; 998778780]))
       = length [998778720; 998778750; 998778780]
    /\ (CopyFeatures ∉ loop_calls true (tail [998778720; 998778750; 998778780]))
    /\ output w'
       = Some ([998778720; 998778750; 998778780] ≫= tagged).
Proof.
  apply (fresh_output_created_then_appended 4 (monday 30) fresh
           998778720 998778780); by vm_compute.
Defined.

(** ** Runs of the script *)

(** The example of the specification: Monday 08:00 to 09:00 in steps of 30
    minutes is 08:00, 08:30 and 09:00. *)
Example monday_timelist :
  process_inputs (monday 30) fresh
  = (set_log [CheckOutExtension] fresh, Ok (998778720, 998778780))
  /\ make_timelist 4 998778720 998778780 30
     = Ok [998778720; 998778750; 998778780]
  /\ Py.str <$> [998778720; 998778750; 998778780]
     = ["1900-01-01 08:00:00"; "1900-01-01 08:30:00"; "1900-01-01 09:00:00"].
Proof. repeat split; by vm_compute. Qed.

(** The whole run of that example on a host with no output yet. *)
Example monday_run :
  script 4 (monday 30) fresh
  = (World true "NALayer" "Service Area Solver" [(time_field, "Date")]
       (Some 998778780) (tagged 998778780)
       (Some (tagged 998778720 ++ tagged 998778750 ++ tagged 998778780))
       ([CheckOutExtension; CheckOutExtension;
         AddFieldToAnalysisLayer time_field;
         AddMessage "Solving Service Area at time..."]
        ++ solve_calls false 998778720
        ++ solve_calls true 998778750
        ++ solve_calls true 998778780
        ++ [CheckInExtension]),
     Ok tt).
Proof. by vm_compute. Qed.

(** Without a licence the script reports it and ends. *)
Example unlicensed_run :
  script 4 (monday 30) unlicensed
  = (set_log [CheckOutExtension;
              AddError "You must have a Network Analyst license to use this tool.";
              CheckInExtension] unlicensed,
     Ok tt).
Proof. by vm_compute. Qed.

(** The last hour of 9999-12-31 in steps of an hour: every check passes and
    line 102 raises in the first pass of the loop. *)
Example last_hour_run :
  process_inputs last_hour fresh
  = (set_log [CheckOutExtension] fresh, Ok (5258966340, 5258966399))
  /\ script 2 last_hour fresh
     = (set_log [CheckOutExtension; CheckOutExtension; CheckInExtension] fresh,
        Raise OverflowError).
Proof. split; by vm_compute. Qed.
